(** * skuld.conf: deferred settings resolution

    A shallow embedding of [src/conf/__init__.py]: the resolved settings
    object [Settings], the override holder [SettingsHolder] and the lazy
    proxy [LazySettings], together with the properties of the settings
    specification that concern them.

    Python objects are modelled by their instance dictionary.  Attribute
    names are strings over the code points 0..255, ordered by code point
    as Python orders [str], with the letter case Python gives each of these
    code points. *)

From Stdlib Require Import Strings.String Strings.Ascii.
From stdpp Require Import base option list sorting gmap strings.

Local Open Scope string_scope.
Set Warnings "-register-all".

(** ** Python values and exceptions *)

(** The values a setting can hold, as far as the code inspects them: their
    truth value and whether they are a list or a tuple. *)
Inductive value : Type :=
  | VNone
  | VBool (b : bool)
  | VInt (z : Z)
  | VStr (s : string)
  | VList (items : list value)
  | VTuple (items : list value)
  | VSet (items : list value)
  | VDict (items : list (value * value)).

Definition nil_b {A} (l : list A) : bool :=
  match l with
  | [] => true
  | _ :: _ => false
  end.

(** [bool(v)] *)
Definition truthy (v : value) : bool :=
  match v with
  | VNone => false
  | VBool b => b
  | VInt z => negb (z =? 0)%Z
  | VStr s => negb (String.eqb s EmptyString)
  | VList l | VTuple l | VSet l => negb (nil_b l)
  | VDict l => negb (nil_b l)
  end.

(** [isinstance(v, (list, tuple))] *)
Definition is_list_or_tuple (v : value) : bool :=
  match v with
  | VList _ | VTuple _ => true
  | _ => false
  end.

Inductive exn : Type :=
  | ImproperlyConfigured (msg : string)
  | AttributeError
  | RuntimeError (msg : string)
  | ModuleNotFoundError (name : string)
  | TypeError
  | ValueError.

Inductive result (A : Type) : Type :=
  | Ok (a : A)
  | Raise (e : exn).
Arguments Ok {A} a.
Arguments Raise {A} e.

Definition is_ok {A} (r : result A) : bool :=
  match r with
  | Ok _ => true
  | Raise _ => false
  end.

(** A statement that raises ends the block it is in. *)
#[export] Instance result_bind : MBind result := λ A B k r,
  match r with
  | Ok a => k a
  | Raise e => Raise e
  end.

(** ** Strings *)

Definition in_range (lo hi n : nat) : bool :=
  (lo <=? n)%nat && (n <=? hi)%nat.

(** [c.isupper()] for one code point below 256: [A]-[Z] and the capital
    letters 192-214 and 216-222. *)
Definition is_upper_char (c : ascii) : bool :=
  let n := nat_of_ascii c in
  in_range 65 90 n || in_range 192 214 n || in_range 216 222 n.

(** [c.islower()] for one code point below 256: [a]-[z], the ordinal
    indicators 170 and 186, the micro sign 181, and the small letters
    223-246 and 248-255.  No code point below 256 is title case. *)
Definition is_lower_char (c : ascii) : bool :=
  let n := nat_of_ascii c in
  in_range 97 122 n || (n =? 170)%nat || (n =? 181)%nat || (n =? 186)%nat
  || in_range 223 246 n || in_range 248 255 n.

Fixpoint any_char (f : ascii → bool) (s : string) : bool :=
  match s with
  | EmptyString => false
  | String c s' => f c || any_char f s'
  end.

(** [str.isupper]: at least one upper-case character and no lower-case
    one. *)
Definition isupper (s : string) : bool :=
  any_char is_upper_char s && negb (any_char is_lower_char s).

(** [sub in s] for two strings: [sub] occurs in [s] as a substring. *)
Fixpoint str_contains (sub s : string) : bool :=
  String.prefix sub s ||
  match s with
  | EmptyString => false
  | String _ s' => str_contains sub s'
  end.

(** [sorted(names)] on a list of strings. *)
Definition sorted (names : list string) : list string :=
  merge_sort String.le names.

(** [dir(m)] of a module or plain namespace [m]: its names, sorted. *)
Definition py_dir {A} (m : gmap string A) : list string :=
  sorted (elements (dom m)).

(** ** The process environment

    What the code reads from outside itself: [os.environ], the default
    catalog [skuld.conf.global_settings] (its whole namespace, lower-case
    names included), the modules [importlib.import_module] can find, each
    by its namespace, whether [time] has [tzset] on this platform, and the
    value of [TZ] the time conversion rules of the process were last set
    from ([None] where they are the system's). *)
Record World : Type := {
  environ : gmap string string;
  global_settings : gmap string value;
  importable : gmap string (gmap string value);
  has_tzset : bool;
  tz_in_effect : option string
}.

Definition ENVIRONMENT_VARIABLE : string := "SKULD_SETTINGS_MODULE".

(** [importlib.import_module(name)] for the names under which the world
    has a module or has none; that importlib refuses the empty name
    outright is not told apart from a module that is not found. *)
Definition import_module (w : World) (name : string)
  : result (gmap string value) :=
  match importable w !! name with
  | Some m => Ok m
  | None => Raise (ModuleNotFoundError name)
  end.

(** [os.environ[key] = v]: the value must be a [str] without a NUL. *)
Definition environ_set (w : World) (key : string) (v : value) : result World :=
  match v with
  | VStr s =>
      if any_char (λ c, bool_decide (c = zero)) s then Raise ValueError
      else Ok {| environ := <[key := s]> (environ w);
                 global_settings := global_settings w;
                 importable := importable w;
                 has_tzset := has_tzset w;
                 tz_in_effect := tz_in_effect w |}
  | _ => Raise TypeError
  end.

(** [time.tzset()]: the time conversion rules are set anew from [TZ]. *)
Definition tzset (w : World) : World :=
  {| environ := environ w;
     global_settings := global_settings w;
     importable := importable w;
     has_tzset := has_tzset w;
     tz_in_effect := environ w !! "TZ" |}.

(** ** Settings *)

(** A [Settings] instance by its [__dict__]: the set under
    [_explicit_settings] and, in [s_dict], every other entry. *)
Record Settings : Type := {
  s_dict : gmap string value;
  _explicit_settings : gset string
}.

(** Line 22: [tuple_settings = ('INSTALLED_APPS')].  The parentheses hold
    no comma, so the name is bound to the string itself and
    [setting in tuple_settings] is a substring test. *)
Definition tuple_settings : string := "INSTALLED_APPS".

Definition must_be_sequence_msg (setting : string) : string :=
  "The " ++ setting ++ " setting must be a list or a tuple.".

Definition secret_key_msg : string :=
  "The SECRET_KEY setting must not be empty.".

(** Lines 15-16: one turn of the loop over [dir(global_settings)]. *)
Definition copy_step (gs : gmap string value) (acc : gmap string value)
    (setting : string) : gmap string value :=
  if isupper setting then
    match gs !! setting with
    | Some v => <[setting := v]> acc
    | None => acc
    end
  else acc.

(** Lines 14-16: copy every upper-case name of the catalog. *)
Definition copy_defaults (gs : gmap string value) : gmap string value :=
  foldl (copy_step gs) ∅ (py_dir gs).

(** Lines 25-33: the loop over [dir(mod)], from the attributes and the
    explicit set reached so far. *)
Fixpoint overlay (mod_ : gmap string value) (names : list string)
    (attrs : gmap string value) (explicit : gset string)
  : result (gmap string value * gset string) :=
  match names with
  | [] => Ok (attrs, explicit)
  | setting :: rest =>
      if isupper setting then
        match mod_ !! setting with
        | None => Raise AttributeError
        | Some setting_value =>
            if str_contains setting tuple_settings
               && negb (is_list_or_tuple setting_value)
            then Raise (ImproperlyConfigured (must_be_sequence_msg setting))
            else overlay mod_ rest (<[setting := setting_value]> attrs)
                         ({[setting]} ∪ explicit)
        end
      else overlay mod_ rest attrs explicit
  end.

(** Lines 35-36. *)
Definition check_secret_key (attrs : gmap string value) : result unit :=
  match attrs !! "SECRET_KEY" with
  | None => Raise AttributeError
  | Some k => if truthy k then Ok tt
              else Raise (ImproperlyConfigured secret_key_msg)
  end.

(** Lines 38-40. *)
Definition apply_time_zone (w : World) (attrs : gmap string value)
  : result World :=
  if has_tzset w then
    match attrs !! "TIME_ZONE" with
    | None => Raise AttributeError
    | Some tz =>
        if truthy tz then w1 ← environ_set w "TZ" tz; Ok (tzset w1)
        else Ok w
    end
  else Ok w.

(** [Settings.__init__].  The environment is written in the last statement
    only, so a construction that raises leaves it as it was. *)
Definition Settings_init (w : World) (settings_module : string)
  : result (World * Settings) :=
  let attrs0 := copy_defaults (global_settings w) in
  let attrs1 := <["SETTINGS_MODULE" := VStr settings_module]> attrs0 in
  mod_ ← import_module w settings_module ;
  ae ← overlay mod_ (py_dir mod_) attrs1 ∅ ;
  _ ← check_secret_key ae.1 ;
  w' ← apply_time_zone w ae.1 ;
  Ok (w', {| s_dict := ae.1; _explicit_settings := ae.2 |}).

(** [getattr(settings, name)] for an upper-case [name]: the class has no
    upper-case attribute, so the instance dictionary decides. *)
Definition Settings_getattr (s : Settings) (name : string) : result value :=
  match s_dict s !! name with
  | Some v => Ok v
  | None => Raise AttributeError
  end.

Definition Settings_is_overridden (s : Settings) (setting : string) : bool :=
  bool_decide (setting ∈ _explicit_settings s).

(** The catalog name [name] of the world, with its value. *)
Definition catalog_value (w : World) (name : string) : option value :=
  if isupper name then global_settings w !! name else None.

(** The upper-case attribute [name] of a module, with its value. *)
Definition module_value (mod_ : gmap string value) (name : string)
  : option value :=
  if isupper name then mod_ !! name else None.

(** The attributes the module loop starts from: the catalog's upper-case
    names, and the module path under [SETTINGS_MODULE]. *)
Definition before_overlay (w : World) (settings_module : string)
  : gmap string value :=
  <["SETTINGS_MODULE" := VStr settings_module]>
    (copy_defaults (global_settings w)).

(** The module loop of a construction, run on its own. *)
Definition overlaid (w : World) (settings_module : string)
    (mod_ : gmap string value) : result (gmap string value * gset string) :=
  overlay mod_ (py_dir mod_) (before_overlay w settings_module) ∅.

(** The value the settings specification gives a name: the module's where
    the module defines the name in upper case, the catalog's otherwise. *)
Definition resolved_value (w : World) (mod_ : gmap string value)
    (name : string) : option value :=
  match module_value mod_ name with
  | Some v => Some v
  | None => catalog_value w name
  end.

(** ** SettingsHolder *)

(** A default-values provider, as the holder uses it: [getattr], [dir] and
    the optional [is_overridden] method. *)
Record provider : Type := {
  p_getattr : string → option value;
  p_dir : list string;
  p_is_overridden : option (string → bool)
}.

(** A module, such as [global_settings], as a provider. *)
Definition module_provider (m : gmap string value) : provider :=
  {| p_getattr := λ name, m !! name;
     p_dir := py_dir m;
     p_is_overridden := None |}.

(** A [SettingsHolder] instance.  Its [__dict__] holds the two entries
    [_deleted] and [default_settings] written by [__init__], kept here as
    fields, and in [h_dict] the entries written afterwards.  The operations
    below are those of the source on upper-case names, which are neither
    one of these two entries nor a method of the class. *)
Record SettingsHolder : Type := {
  _deleted : gset string;
  default_settings : provider;
  h_dict : gmap string value
}.

Definition SettingsHolder_init (ds : provider) : SettingsHolder :=
  {| _deleted := ∅; default_settings := ds; h_dict := ∅ |}.

(** Line 50: the one upper-case attribute of the class. *)
Definition SettingsHolder_class_attr (name : string) : option value :=
  if String.eqb name "SETTINGS_MODULE" then Some VNone else None.

(** [SettingsHolder.__getattr__], which Python calls when the instance and
    the class have no attribute [name]. *)
Definition SettingsHolder_getattr (h : SettingsHolder) (name : string)
  : result value :=
  if bool_decide (name ∈ _deleted h) then Raise AttributeError
  else match p_getattr (default_settings h) name with
       | Some v => Ok v
       | None => Raise AttributeError
       end.

(** [getattr(holder, name)] for an upper-case [name]: the instance, then
    the class, then [__getattr__]. *)
Definition SettingsHolder_read (h : SettingsHolder) (name : string)
  : result value :=
  match h_dict h !! name with
  | Some v => Ok v
  | None =>
      match SettingsHolder_class_attr name with
      | Some v => Ok v
      | None => SettingsHolder_getattr h name
      end
  end.

Definition SettingsHolder_hasattr (h : SettingsHolder) (name : string) : bool :=
  match SettingsHolder_read h name with
  | Ok _ => true
  | Raise _ => false
  end.

(** [SettingsHolder.__setattr__] *)
Definition SettingsHolder_setattr (h : SettingsHolder) (name : string)
    (v : value) : SettingsHolder :=
  {| _deleted := _deleted h ∖ {[name]};
     default_settings := default_settings h;
     h_dict := <[name := v]> (h_dict h) |}.

(** [object.__delattr__]: removes an instance attribute, and raises when
    the instance has none of that name. *)
Definition object_delattr (h : SettingsHolder) (name : string)
  : SettingsHolder * result unit :=
  match h_dict h !! name with
  | Some _ => ({| _deleted := _deleted h;
                  default_settings := default_settings h;
                  h_dict := delete name (h_dict h) |}, Ok tt)
  | None => (h, Raise AttributeError)
  end.

(** [SettingsHolder.__delattr__].  The holder it returns is the one the
    caller is left with, also when the call raises. *)
Definition SettingsHolder_delattr (h : SettingsHolder) (name : string)
  : SettingsHolder * result unit :=
  let h1 := {| _deleted := {[name]} ∪ _deleted h;
               default_settings := default_settings h;
               h_dict := h_dict h |} in
  if SettingsHolder_hasattr h1 name then object_delattr h1 name
  else (h1, Ok tt).

(** The keys of [self.__dict__]. *)
Definition SettingsHolder_dict_names (h : SettingsHolder) : list string :=
  "_deleted" :: "default_settings" :: elements (dom (h_dict h)).

(** [SettingsHolder.__dir__] *)
Definition SettingsHolder_dir (h : SettingsHolder) : list string :=
  sorted
    (filter (λ s, s ∉ _deleted h)
            (SettingsHolder_dict_names h ++ p_dir (default_settings h))%list).

(** [SettingsHolder.is_overridden] *)
Definition SettingsHolder_is_overridden (h : SettingsHolder)
    (setting : string) : bool :=
  let deleted := bool_decide (setting ∈ _deleted h) in
  let set_locally := bool_decide (setting ∈ SettingsHolder_dict_names h) in
  let set_on_default :=
    match p_is_overridden (default_settings h) with
    | Some f => f setting
    | None => false
    end in
  deleted || set_locally || set_on_default.

(** The writes and deletions a caller can make on a holder. *)
Inductive holder_op : Type :=
  | OpSet (name : string) (v : value)
  | OpDel (name : string).

Definition op_name (o : holder_op) : string :=
  match o with
  | OpSet name _ => name
  | OpDel name => name
  end.

(** One operation; a deletion that raises still leaves its holder. *)
Definition run_op (h : SettingsHolder) (o : holder_op) : SettingsHolder :=
  match o with
  | OpSet name v => SettingsHolder_setattr h name v
  | OpDel name => (SettingsHolder_delattr h name).1
  end.

Definition run_ops (h : SettingsHolder) (ops : list holder_op)
  : SettingsHolder :=
  foldl run_op h ops.

(** No name is both deleted and explicitly set. *)
Definition flags_exclusive (h : SettingsHolder) : Prop :=
  ∀ name, ¬ (name ∈ _deleted h ∧ is_Some (h_dict h !! name)).

(** The enumeration as the settings specification words it: the union of
    the explicitly set names and the provider's configuration names, less
    the deleted ones, each once, sorted. *)
Definition list_names_spec (h : SettingsHolder) : list string :=
  sorted (elements
            ((dom (h_dict h)
              ∪ list_to_set (filter (λ s, isupper s = true)
                                    (p_dir (default_settings h))))
             ∖ _deleted h)).

(** ** LazySettings *)

(** What an attribute of the proxy can hold: the marker [empty], a
    [Settings] or [SettingsHolder] instance, or a plain value. *)
Inductive pyobj : Type :=
  | Empty
  | Resolved (s : Settings)
  | Holder (h : SettingsHolder)
  | Plain (v : value).

(** A [LazySettings] instance: the entry [_wrapped] of its [__dict__] and,
    in [l_dict], the other entries, which are its local cache. *)
Record LazySettings : Type := {
  _wrapped : pyobj;
  l_dict : gmap string pyobj
}.

(** Modelled from the spec: [LazyObject.__init__] of
    [skuld.utils.functional], which is not among the sources.  The proxy
    starts Unconfigured, its backing object being [empty]. *)
Definition LazyObject_init : LazySettings :=
  {| _wrapped := Empty; l_dict := ∅ |}.

(** Modelled from the spec: [LazyObject.__setattr__] of
    [skuld.utils.functional], which is not among the sources.  A write to
    the backing-object slot rebinds the backing object; a write to another
    name "sets it directly as a proxy-local override". *)
Definition LazyObject_setattr (p : LazySettings) (name : string) (x : pyobj)
  : LazySettings :=
  if String.eqb name "_wrapped" then {| _wrapped := x; l_dict := l_dict p |}
  else {| _wrapped := _wrapped p; l_dict := <[name := x]> (l_dict p) |}.

(** Lines 112-115 of [LazySettings.__setattr__]: what the write drops from
    [__dict__] before it hands over to the base class. *)
Definition LazySettings_invalidate (p : LazySettings) (name : string)
  : LazySettings :=
  if String.eqb name "_wrapped" then {| _wrapped := _wrapped p; l_dict := ∅ |}
  else {| _wrapped := _wrapped p; l_dict := delete name (l_dict p) |}.

(** [LazySettings.__setattr__] *)
Definition LazySettings_setattr (p : LazySettings) (name : string) (x : pyobj)
  : LazySettings :=
  LazyObject_setattr (LazySettings_invalidate p name) name x.

Definition str_truthy (s : option string) : bool :=
  match s with
  | Some s => negb (String.eqb s EmptyString)
  | None => false
  end.

Definition unconfigured_msg (name : option string) : string :=
  let desc := if str_truthy name then "setting " ++ default EmptyString name
              else "settings" in
  "Requested " ++ desc ++ ", but settings are not configured. "
  ++ "You must either define the environment variable "
  ++ ENVIRONMENT_VARIABLE ++ " "
  ++ "or call settings.configure() before accessing settings.".

(** [LazySettings._setup] *)
Definition LazySettings_setup (w : World) (p : LazySettings)
    (name : option string) : World * LazySettings * result unit :=
  let settings_module := environ w !! ENVIRONMENT_VARIABLE in
  if negb (str_truthy settings_module) then
    (w, p, Raise (ImproperlyConfigured (unconfigured_msg name)))
  else
    match Settings_init w (default EmptyString settings_module) with
    | Ok (w', s) => (w', LazySettings_setattr p "_wrapped" (Resolved s), Ok tt)
    | Raise e => (w, p, Raise e)
    end.

(** [getattr(self._wrapped, name)] for an upper-case [name]; a plain value
    has no such attribute. *)
Definition wrapped_getattr (x : pyobj) (name : string) : result value :=
  match x with
  | Resolved s => Settings_getattr s name
  | Holder h => SettingsHolder_read h name
  | Empty | Plain _ => Raise AttributeError
  end.

(** [LazySettings.__getattr__], which Python calls when the proxy and its
    class have no attribute [name]. *)
Definition LazySettings_getattr (w : World) (p : LazySettings) (name : string)
  : World * LazySettings * result pyobj :=
  let '(w1, p1, r) :=
    match _wrapped p with
    | Empty => LazySettings_setup w p (Some name)
    | _ => (w, p, Ok tt)
    end in
  match r with
  | Raise e => (w1, p1, Raise e)
  | Ok _ =>
      match wrapped_getattr (_wrapped p1) name with
      | Raise e => (w1, p1, Raise e)
      | Ok val =>
          (w1, {| _wrapped := _wrapped p1;
                  l_dict := <[name := Plain val]> (l_dict p1) |},
           Ok (Plain val))
      end
  end.

(** [proxy.name] for an upper-case [name]: the proxy's own [__dict__], then
    [__getattr__]. *)
Definition LazySettings_read (w : World) (p : LazySettings) (name : string)
  : World * LazySettings * result pyobj :=
  match l_dict p !! name with
  | Some x => (w, p, Ok x)
  | None => LazySettings_getattr w p name
  end.

(** Lines 126-127: the loop over the options of [configure], for options
    with upper-case names. *)
Definition apply_options (h : SettingsHolder) (options : list (string * value))
  : SettingsHolder :=
  foldl (λ h nv, SettingsHolder_setattr h nv.1 nv.2) h options.

(** [LazySettings.configure] *)
Definition LazySettings_configure (p : LazySettings)
    (default_settings : provider) (options : list (string * value))
  : LazySettings * result unit :=
  match _wrapped p with
  | Empty =>
      let holder :=
        apply_options (SettingsHolder_init default_settings) options in
      (LazySettings_setattr p "_wrapped" (Holder holder), Ok tt)
  | _ => (p, Raise (RuntimeError "Settings already configured."))
  end.

(** The property [LazySettings.configured] *)
Definition LazySettings_configured (p : LazySettings) : bool :=
  match _wrapped p with
  | Empty => false
  | _ => true
  end.

(** ** Readings used by the further properties *)

(** What the module loop refuses in a module: an upper-case attribute
    whose name passes the test [setting in tuple_settings] and whose
    value is neither a list nor a tuple. *)
Definition refused (mod_ : gmap string value) (name : string) : bool :=
  match module_value mod_ name with
  | Some v => str_contains name tuple_settings && negb (is_list_or_tuple v)
  | None => false
  end.

(** A holder read in three states: a deleted name raises, an explicitly
    set name has its value, any other name is the provider's. *)
Definition three_state_get (h : SettingsHolder) (name : string)
  : result value :=
  if bool_decide (name ∈ _deleted h) then Raise AttributeError
  else match h_dict h !! name with
       | Some v => Ok v
       | None =>
           match p_getattr (default_settings h) name with
           | Some v => Ok v
           | None => Raise AttributeError
           end
       end.

(** ** Sample configurations *)

Definition sample_catalog : gmap string value :=
  {[ "INSTALLED_APPS" := VList [];
     "SECRET_KEY" := VStr EmptyString;
     "TIME_ZONE" := VStr "UTC";
     "__name__" := VStr "skuld.conf.global_settings" ]}.

Definition sample_world (catalog : gmap string value)
    (site : gmap string value) : World :=
  {| environ := {[ ENVIRONMENT_VARIABLE := "site" ]};
     global_settings := catalog;
     importable := {[ "site" := site ]};
     has_tzset := true;
     tz_in_effect := None |}.

(** A settings module that sets a key and one more option. *)
Definition site_plain : gmap string value :=
  {[ "SECRET_KEY" := VStr "k"; "DEBUG" := VBool true ]}.

(** A settings module with an option called [APPS]. *)
Definition site_apps : gmap string value :=
  {[ "SECRET_KEY" := VStr "k"; "APPS" := VStr "blog" ]}.

(** A settings module whose [INSTALLED_APPS] is a set. *)
Definition site_set : gmap string value :=
  {[ "SECRET_KEY" := VStr "k";
     "INSTALLED_APPS" := VSet [VStr "a"; VStr "b"] ]}.

(** A catalog with a key of its own, and a module that blanks the key. *)
Definition catalog_keyed : gmap string value :=
  <["SECRET_KEY" := VStr "default-key"]> sample_catalog.

Definition site_blank_key : gmap string value :=
  {[ "SECRET_KEY" := VStr EmptyString ]}.

(** A catalog that has a [SETTINGS_MODULE] entry of its own. *)
Definition catalog_with_path : gmap string value :=
  <["SETTINGS_MODULE" := VStr "default"]> sample_catalog.

(** A provider that defines [X], and a holder over it on which [X] has
    been set. *)
Definition sample_provider : provider :=
  module_provider {[ "X" := VInt 0; "__name__" := VStr "defaults" ]}.

Definition sample_holder : SettingsHolder :=
  SettingsHolder_setattr (SettingsHolder_init sample_provider) "X" (VInt 1).

(** A world in which the selector variable is not set, one in which it is
    set to the empty string while a module of that name could be found,
    and one that selects the module [site]. *)
Definition world_unset : World :=
  {| environ := ∅;
     global_settings := sample_catalog;
     importable := {[ "site" := site_plain ]};
     has_tzset := true;
     tz_in_effect := None |}.

Definition world_blank : World :=
  {| environ := {[ ENVIRONMENT_VARIABLE := EmptyString ]};
     global_settings := sample_catalog;
     importable := {[ EmptyString := site_plain ]};
     has_tzset := true;
     tz_in_effect := None |}.

Definition world_site : World := sample_world sample_catalog site_plain.

(** A proxy configured with two options, both of which have been read. *)
Definition proxy_AB : LazySettings :=
  let p0 := (LazySettings_configure LazyObject_init sample_provider
               [("A", VInt 1); ("B", VInt 2)]).1 in
  let p1 := (LazySettings_read world_unset p0 "A").1.2 in
  (LazySettings_read world_unset p1 "B").1.2.

(** A settings module with two attributes the loop refuses, and one whose
    [INSTALLED_APPS] is a list. *)
Definition site_two_refused : gmap string value :=
  {[ "SECRET_KEY" := VStr "k";
     "INSTALLED_APPS" := VSet [VStr "a"];
     "APPS" := VStr "blog" ]}.

Definition site_apps_list : gmap string value :=
  {[ "SECRET_KEY" := VStr "k";
     "INSTALLED_APPS" := VList [VStr "blog"] ]}.

(** A catalog without [SECRET_KEY]. *)
Definition catalog_no_key : gmap string value :=
  {[ "TIME_ZONE" := VStr "UTC" ]}.



(** * Properties *)

(** ** Names and sorting *)

Lemma sorted_Permutation (names : list string) : sorted names ≡ₚ names.
Proof. apply merge_sort_Permutation. Qed.

Lemma sorted_Sorted (names : list string) : Sorted String.le (sorted names).
Proof. apply (Sorted_merge_sort String.le). Qed.

Lemma elem_of_sorted (name : string) (names : list string) :
  name ∈ sorted names ↔ name ∈ names.
Proof. by rewrite sorted_Permutation. Qed.

Lemma elem_of_py_dir {A} (m : gmap string A) (name : string) :
  name ∈ py_dir m ↔ is_Some (m !! name).
Proof.
  unfold py_dir. by rewrite elem_of_sorted, elem_of_elements, elem_of_dom.
Qed.

Lemma bool_decide_elem_of_cons (name setting : string) (rest : list string) :
  bool_decide (name ∈ setting :: rest) =
    bool_decide (name = setting) || bool_decide (name ∈ rest).
Proof. repeat case_bool_decide; simpl; try done; set_solver. Qed.

(** [isupper] on names with letters above 127: a capital E with acute
    accent (201) is upper case, and a sharp s (223) after [A] makes the
    name not upper case, as do the ordinal indicator (170) and the micro
    sign (181); the multiplication sign (215) has no case. *)
Lemma isupper_above_127 :
  isupper (String (ascii_of_nat 201) EmptyString) = true
  ∧ isupper (String "A" (String (ascii_of_nat 223) EmptyString)) = false
  ∧ isupper (String "A" (String (ascii_of_nat 170) EmptyString)) = false
  ∧ isupper (String "A" (String (ascii_of_nat 181) EmptyString)) = false
  ∧ isupper (String "A" (String (ascii_of_nat 215) EmptyString)) = true
  ∧ isupper (String (ascii_of_nat 215) EmptyString) = false.
Proof. split_and!; vm_compute; reflexivity. Qed.

(** ** Settings: what construction leaves on the instance *)

Section SettingsOverlay.

Context (gs : gmap string value).

Lemma copy_step_lookup (acc : gmap string value) (setting name : string) :
  copy_step gs acc setting !! name =
    if bool_decide (name = setting) && isupper name
    then from_option Some (acc !! name) (gs !! name) else acc !! name.
Proof.
  unfold copy_step. case_bool_decide as Hd; simpl.
  - subst name. destruct (isupper setting); [|done].
    destruct (gs !! setting); simpl; [|done]. by rewrite lookup_insert_eq.
  - destruct (isupper setting); [|done].
    destruct (gs !! setting); [|done]. by rewrite lookup_insert_ne.
Qed.

Lemma copy_loop_lookup (names : list string) (acc : gmap string value)
    (name : string) :
  foldl (copy_step gs) acc names !! name =
    if bool_decide (name ∈ names) && isupper name
    then from_option Some (acc !! name) (gs !! name) else acc !! name.
Proof.
  revert acc. induction names as [|setting rest IH]; intros acc;
    cbn [foldl].
  - rewrite bool_decide_eq_false_2; [done|]. apply not_elem_of_nil.
  - rewrite IH, copy_step_lookup.
    rewrite bool_decide_elem_of_cons.
    destruct (bool_decide (name = setting)), (bool_decide (name ∈ rest)),
      (isupper name), (gs !! name); done.
Qed.

Lemma copy_defaults_lookup (name : string) :
  copy_defaults gs !! name = if isupper name then gs !! name else None.
Proof.
  unfold copy_defaults. rewrite copy_loop_lookup.
  rewrite lookup_empty. case_bool_decide as H; simpl.
  - destruct (isupper name); [|done]. by destruct (gs !! name).
  - destruct (isupper name); [|done].
    destruct (gs !! name) eqn:Hg; [|done].
    exfalso. apply H, elem_of_py_dir. by eexists.
Qed.

End SettingsOverlay.

Lemma overlay_ok (mod_ : gmap string value) (names : list string)
    (attrs attrs' : gmap string value) (explicit explicit' : gset string) :
  overlay mod_ names attrs explicit = Ok (attrs', explicit') →
  ∀ name,
    (attrs' !! name =
       if bool_decide (name ∈ names) && isupper name
       then mod_ !! name else attrs !! name) ∧
    (name ∈ explicit' ↔
       name ∈ explicit ∨ (name ∈ names ∧ isupper name = true)).
Proof.
  revert attrs explicit.
  induction names as [|setting rest IH]; intros attrs explicit H name.
  - cbn [overlay] in H. injection H as <- <-. split.
    + rewrite bool_decide_eq_false_2; [done|]. apply not_elem_of_nil.
    + set_solver.
  - cbn [overlay] in H. rewrite bool_decide_elem_of_cons.
    destruct (isupper setting) eqn:Hu.
    + destruct (mod_ !! setting) as [v|] eqn:Hm; [|done].
      destruct (str_contains setting tuple_settings
                && negb (is_list_or_tuple v)); [done|].
      destruct (IH _ _ H name) as [IH1 IH2]. split.
      * rewrite IH1. destruct (decide (name = setting)) as [->|Hne].
        -- rewrite (bool_decide_eq_true_2 (setting = setting)) by done.
           rewrite Hu, lookup_insert_eq, Hm.
           by destruct (bool_decide (setting ∈ rest)).
        -- rewrite (bool_decide_eq_false_2 (name = setting)) by done.
           by rewrite lookup_insert_ne.
      * rewrite IH2. destruct (decide (name = setting)) as [->|Hne];
          set_solver.
    + destruct (IH _ _ H name) as [IH1 IH2]. split.
      * rewrite IH1. destruct (decide (name = setting)) as [->|Hne].
        -- rewrite Hu. by rewrite !andb_false_r.
        -- by rewrite (bool_decide_eq_false_2 (name = setting)) by done.
      * rewrite IH2. split; [set_solver|].
        intros [?|[Hin Hup]]; [by left|right]. split; [|done].
        apply elem_of_cons in Hin as [->|?]; [congruence|done].
Qed.

Lemma before_overlay_lookup (w : World) (path name : string) :
  before_overlay w path !! name =
    if String.eqb name "SETTINGS_MODULE" then Some (VStr path)
    else catalog_value w name.
Proof.
  unfold before_overlay, catalog_value.
  destruct (String.eqb_spec name "SETTINGS_MODULE") as [->|Hne].
  - by rewrite lookup_insert_eq.
  - rewrite lookup_insert_ne by done. apply copy_defaults_lookup.
Qed.

Lemma overlaid_lookup (w : World) (path : string) (mod_ : gmap string value)
    (attrs : gmap string value) (explicit : gset string) (name : string) :
  overlaid w path mod_ = Ok (attrs, explicit) →
  attrs !! name =
    match module_value mod_ name with
    | Some v => Some v
    | None => if String.eqb name "SETTINGS_MODULE" then Some (VStr path)
              else catalog_value w name
    end
  ∧ (name ∈ explicit ↔ is_Some (module_value mod_ name)).
Proof.
  intros H. destruct (overlay_ok _ _ _ _ _ _ H name) as [H1 H2].
  unfold module_value. split.
  - rewrite H1, before_overlay_lookup.
    destruct (decide (name ∈ py_dir mod_)) as [Hd|Hd].
    + rewrite bool_decide_eq_true_2 by done.
      apply elem_of_py_dir in Hd as [v Hv]. rewrite Hv.
      by destruct (isupper name).
    + rewrite bool_decide_eq_false_2 by done. simpl.
      destruct (isupper name) eqn:Hu; [|done].
      destruct (mod_ !! name) eqn:Hm; [|done].
      exfalso. apply Hd, elem_of_py_dir. by eexists.
  - rewrite H2, elem_of_py_dir.
    destruct (isupper name); split.
    + intros [Hin|[Hs _]]; [by apply not_elem_of_empty in Hin|done].
    + intros Hs. by right.
    + intros [Hin|[_ ?]]; [by apply not_elem_of_empty in Hin|done].
    + by intros [? ?].
Qed.

Lemma Settings_init_unfold (w : World) (path : string) :
  Settings_init w path =
    (mod_ ← import_module w path;
     ae ← overlaid w path mod_;
     _ ← check_secret_key ae.1;
     w' ← apply_time_zone w ae.1;
     Ok (w', {| s_dict := ae.1; _explicit_settings := ae.2 |})).
Proof. reflexivity. Qed.

Lemma Settings_init_ok (w w' : World) (path : string) (s : Settings) :
  Settings_init w path = Ok (w', s) →
  ∃ mod_, importable w !! path = Some mod_ ∧
          overlaid w path mod_ = Ok (s_dict s, _explicit_settings s).
Proof.
  rewrite Settings_init_unfold. unfold import_module.
  destruct (importable w !! path) as [mod_|]; [|done]. simpl.
  destruct (overlaid w path mod_) as [[attrs explicit]|] eqn:Ho; [|done].
  simpl. destruct (check_secret_key attrs); [|done]. simpl.
  destruct (apply_time_zone w attrs); [|done]. simpl.
  intros [= ? ?]; subst. by exists mod_.
Qed.

(** A construction that succeeds has every upper-case name of the module
    on the instance and in the explicit set, and the catalog's names
    around them. *)
Lemma Settings_init_lookup (w w' : World) (path : string)
    (mod_ : gmap string value) (s : Settings) (name : string) :
  importable w !! path = Some mod_ →
  Settings_init w path = Ok (w', s) →
  s_dict s !! name =
    match module_value mod_ name with
    | Some v => Some v
    | None => if String.eqb name "SETTINGS_MODULE" then Some (VStr path)
              else catalog_value w name
    end
  ∧ (name ∈ _explicit_settings s ↔ is_Some (module_value mod_ name)).
Proof.
  intros Hm Hs. apply Settings_init_ok in Hs as (mod' & Hm' & Ho).
  assert (mod' = mod_) as -> by congruence.
  by apply overlaid_lookup.
Qed.

(** C1, as the code has it: on a constructed [Settings], a catalog name
    that the override module does not define in upper case reads as the
    catalog's value, except [SETTINGS_MODULE], which reads as the module
    path given to the constructor, and [is_overridden] is false for it; a
    name the module defines in upper case, in the catalog or not, reads as
    the module's value and [is_overridden] is true for it. *)
Theorem Settings_resolution (w w' : World) (path : string)
    (mod_ : gmap string value) (s : Settings) (name : string) :
  importable w !! path = Some mod_ →
  Settings_init w path = Ok (w', s) →
  (∀ v, catalog_value w name = Some v →
        module_value mod_ name = None →
        Settings_getattr s name =
          Ok (if String.eqb name "SETTINGS_MODULE" then VStr path else v)
        ∧ Settings_is_overridden s name = false)
  ∧ (∀ v, module_value mod_ name = Some v →
          Settings_getattr s name = Ok v
          ∧ Settings_is_overridden s name = true).
Proof.
  intros Hm Hs.
  destruct (Settings_init_lookup _ _ _ _ _ name Hm Hs) as [Hl He].
  unfold Settings_getattr, Settings_is_overridden. split.
  - intros v Hc Hn. rewrite Hl, Hn, Hc. split.
    + by destruct (String.eqb name "SETTINGS_MODULE").
    + apply bool_decide_eq_false_2. rewrite He, Hn. by intros [? ?].
  - intros v Hv. rewrite Hl, Hv. split; [done|].
    apply bool_decide_eq_true_2. rewrite He, Hv. by eexists.
Qed.

Lemma Settings_resolution_witness :
  ∃ w' s,
    Settings_init (sample_world sample_catalog site_plain) "site" = Ok (w', s)
    ∧ Settings_getattr s "TIME_ZONE" = Ok (VStr "UTC")
    ∧ Settings_is_overridden s "TIME_ZONE" = false
    ∧ Settings_getattr s "DEBUG" = Ok (VBool true)
    ∧ Settings_is_overridden s "DEBUG" = true.
Proof.
  assert (∃ x, Settings_init (sample_world sample_catalog site_plain) "site"
               = Ok x) as [[w' s] Hs].
  { vm_compute. eexists. reflexivity. }
  assert (importable (sample_world sample_catalog site_plain) !! "site"
          = Some site_plain) as Hi by (vm_compute; reflexivity).
  exists w', s. split; [exact Hs|].
  destruct (Settings_resolution _ w' "site" site_plain s "TIME_ZONE" Hi Hs)
    as [Hc _].
  destruct (Settings_resolution _ w' "site" site_plain s "DEBUG" Hi Hs)
    as [_ Hm].
  destruct (Hc (VStr "UTC")) as [H1 H2]; [vm_compute; reflexivity..|].
  destruct (Hm (VBool true)) as [H3 H4]; [vm_compute; reflexivity|].
  auto.
Defined.

(** C1 as the specification words it does not hold for the catalog name
    [SETTINGS_MODULE]: line 18 stores the module path under that name after
    the catalog has been copied, so the catalog's value is not what the
    instance returns. *)
Lemma catalog_SETTINGS_MODULE_replaced :
  catalog_value (sample_world catalog_with_path site_plain) "SETTINGS_MODULE"
    = Some (VStr "default")
  ∧ module_value site_plain "SETTINGS_MODULE" = None
  ∧ (x ← Settings_init (sample_world catalog_with_path site_plain) "site";
     Settings_getattr x.2 "SETTINGS_MODULE") = Ok (VStr "site")
  ∧ (x ← Settings_init (sample_world catalog_with_path site_plain) "site";
     Settings_getattr x.2 "SETTINGS_MODULE") ≠ Ok (VStr "default").
Proof.
  assert ((x ← Settings_init (sample_world catalog_with_path site_plain) "site";
           Settings_getattr x.2 "SETTINGS_MODULE") = Ok (VStr "site")) as H
    by (vm_compute; reflexivity).
  split_and!; [vm_compute; reflexivity..|exact H|]. rewrite H. discriminate.
Qed.

(** ** Settings: the shape validation *)

(** The names the loop validates are the upper-case substrings of
    ["INSTALLED_APPS"], the name itself being one of them. *)
Lemma tuple_settings_names :
  str_contains "INSTALLED_APPS" tuple_settings = true
  ∧ str_contains "APPS" tuple_settings = true
  ∧ str_contains "INSTALLED" tuple_settings = true
  ∧ str_contains "DEBUG" tuple_settings = false.
Proof. by vm_compute. Qed.

(** A module whose [INSTALLED_APPS] is a set is refused, the error naming
    [INSTALLED_APPS]. *)
Lemma INSTALLED_APPS_set_refused :
  Settings_init (sample_world sample_catalog site_set) "site"
  = Raise (ImproperlyConfigured
             "The INSTALLED_APPS setting must be a list or a tuple.").
Proof. vm_compute. reflexivity. Qed.

(** C3: the validation is not limited to [INSTALLED_APPS].  A module that
    defines [APPS = "blog"] is refused with a Misconfiguration error naming
    [APPS], where the specification has that attribute copied onto the
    settings whatever its shape. *)
Theorem APPS_string_refused :
  Settings_init (sample_world sample_catalog site_apps) "site"
  = Raise (ImproperlyConfigured "The APPS setting must be a list or a tuple.").
Proof. vm_compute. reflexivity. Qed.

(** ** Settings: the SECRET_KEY check *)

Lemma apply_time_zone_raises (w : World) (attrs : gmap string value)
    (msg : string) :
  apply_time_zone w attrs ≠ Raise (ImproperlyConfigured msg).
Proof.
  unfold apply_time_zone, environ_set.
  destruct (has_tzset w); [|done].
  destruct (attrs !! "TIME_ZONE") as [tz|]; [|done].
  destruct (truthy tz); [|done].
  destruct tz; try done.
  by destruct (any_char _ s).
Qed.

Lemma overlaid_SECRET_KEY (w : World) (path : string)
    (mod_ : gmap string value) (ae : gmap string value * gset string) :
  overlaid w path mod_ = Ok ae →
  ae.1 !! "SECRET_KEY" = resolved_value w mod_ "SECRET_KEY".
Proof.
  destruct ae as [attrs explicit]. intros H. simpl.
  apply (overlaid_lookup _ _ _ _ _ "SECRET_KEY") in H as [H _].
  rewrite H. reflexivity.
Qed.

(** C4, as the code has it: when the module is found and its attributes
    pass the shape validation, construction fails with a Misconfiguration
    error if and only if [SECRET_KEY] after the overlay is falsy, and the
    error is then the one about [SECRET_KEY]; with a truthy [SECRET_KEY]
    construction goes on to the time-zone step and returns the settings
    unless that step raises. *)
Theorem SECRET_KEY_checked_after_overlay (w : World) (path : string)
    (mod_ : gmap string value) :
  importable w !! path = Some mod_ →
  is_ok (overlaid w path mod_) = true →
  ((∃ msg, Settings_init w path = Raise (ImproperlyConfigured msg))
     ↔ ∃ k, resolved_value w mod_ "SECRET_KEY" = Some k ∧ truthy k = false)
  ∧ (∀ k, resolved_value w mod_ "SECRET_KEY" = Some k → truthy k = false →
          Settings_init w path = Raise (ImproperlyConfigured secret_key_msg))
  ∧ (∀ k, resolved_value w mod_ "SECRET_KEY" = Some k → truthy k = true →
          Settings_init w path =
            (ae ← overlaid w path mod_;
             w' ← apply_time_zone w ae.1;
             Ok (w', {| s_dict := ae.1; _explicit_settings := ae.2 |}))).
Proof.
  intros Hm Hok. destruct (overlaid w path mod_) as [ae|] eqn:Ho; [|done].
  pose proof (overlaid_SECRET_KEY _ _ _ _ Ho) as Hk.
  rewrite Settings_init_unfold. unfold import_module. rewrite Hm. simpl.
  rewrite Ho. simpl. unfold check_secret_key. rewrite Hk.
  destruct (resolved_value w mod_ "SECRET_KEY") as [k|]; simpl.
  - destruct (truthy k) eqn:Ht; simpl.
    + split_and!.
      * split.
        -- intros [msg H].
           destruct (apply_time_zone w ae.1) eqn:Htz; simpl in H; [done|].
           injection H as ->. by apply apply_time_zone_raises in Htz.
        -- intros (k' & [= <-] & ?). congruence.
      * intros k' [= <-] ?. congruence.
      * done.
    + split_and!.
      * split; [by exists k|by eexists].
      * done.
      * intros k' [= <-] ?. congruence.
  - split_and!; [split|done..].
    + by intros [msg H].
    + by intros (k & ? & _).
Qed.

Lemma SECRET_KEY_checked_after_overlay_witness :
  Settings_init (sample_world catalog_keyed site_blank_key) "site"
    = Raise (ImproperlyConfigured secret_key_msg)
  ∧ is_ok (Settings_init (sample_world sample_catalog site_plain) "site")
    = true.
Proof.
  split.
  - eapply (SECRET_KEY_checked_after_overlay _ "site" site_blank_key);
      [vm_compute; reflexivity..].
  - destruct (SECRET_KEY_checked_after_overlay
                (sample_world sample_catalog site_plain) "site" site_plain)
      as (_ & _ & Hgo); [vm_compute; reflexivity..|].
    rewrite (Hgo (VStr "k")); vm_compute; reflexivity.
Defined.

(** With a truthy [SECRET_KEY] the time-zone step can still raise: a
    [TIME_ZONE] that is not a string cannot be written to [os.environ]. *)
Lemma TIME_ZONE_not_a_string :
  Settings_init (sample_world sample_catalog
                   (<["TIME_ZONE" := VInt 5]> site_plain)) "site"
  = Raise TypeError.
Proof. vm_compute. reflexivity. Qed.

(** C4 as the specification words it does not hold: a module with a
    non-empty [SECRET_KEY] whose [INSTALLED_APPS] is a set fails
    construction with a Misconfiguration error all the same. *)
Lemma truthy_SECRET_KEY_still_misconfigured :
  resolved_value (sample_world sample_catalog site_set) site_set "SECRET_KEY"
    = Some (VStr "k")
  ∧ truthy (VStr "k") = true
  ∧ Settings_init (sample_world sample_catalog site_set) "site"
    = Raise (ImproperlyConfigured
               "The INSTALLED_APPS setting must be a list or a tuple.").
Proof. split_and!; vm_compute; reflexivity. Qed.

(** ** SettingsHolder *)

Lemma SettingsHolder_setattr_flags (h : SettingsHolder) (name : string)
    (v : value) :
  name ∉ _deleted (SettingsHolder_setattr h name v)
  ∧ h_dict (SettingsHolder_setattr h name v) !! name = Some v.
Proof. simpl. split; [set_solver|apply lookup_insert_eq]. Qed.

Lemma SettingsHolder_delattr_unfold (h : SettingsHolder) (name : string) :
  (SettingsHolder_delattr h name).1 =
    {| _deleted := {[name]} ∪ _deleted h;
       default_settings := default_settings h;
       h_dict := delete name (h_dict h) |}.
Proof.
  unfold SettingsHolder_delattr, SettingsHolder_hasattr, SettingsHolder_read,
    object_delattr. simpl.
  destruct (h_dict h !! name) eqn:Hd; simpl; [done|].
  rewrite (delete_id (h_dict h) name Hd).
  destruct (SettingsHolder_class_attr name); simpl; [done|].
  by destruct (SettingsHolder_getattr _ name).
Qed.

Lemma SettingsHolder_delattr_flags (h : SettingsHolder) (name : string) :
  name ∈ _deleted (SettingsHolder_delattr h name).1
  ∧ h_dict (SettingsHolder_delattr h name).1 !! name = None.
Proof.
  rewrite SettingsHolder_delattr_unfold. simpl.
  split; [set_solver|apply lookup_delete_eq].
Qed.

Lemma run_op_exclusive (h : SettingsHolder) (o : holder_op) :
  flags_exclusive h → flags_exclusive (run_op h o).
Proof.
  intros Hh name [Hdel Hset]. destruct o as [n v|n]; simpl in *.
  - destruct (decide (name = n)) as [->|Hne]; [set_solver|].
    rewrite lookup_insert_ne in Hset by done.
    apply (Hh name). split; [set_solver|done].
  - rewrite SettingsHolder_delattr_unfold in Hdel, Hset. simpl in *.
    destruct (decide (name = n)) as [->|Hne].
    + rewrite lookup_delete_eq in Hset. by destruct Hset.
    + rewrite lookup_delete_ne in Hset by done.
      apply (Hh name). split; [set_solver|done].
Qed.

(** C9: whatever writes and deletions of option names a holder has gone
    through, no name is both in the deletion set and explicitly set: a
    write takes its name out of the deletion set and stores the value, a
    deletion puts its name in the deletion set and drops the stored
    value. *)
Theorem SettingsHolder_flags_exclusive (ds : provider) (ops : list holder_op) :
  Forall (λ o, isupper (op_name o) = true) ops →
  flags_exclusive (run_ops (SettingsHolder_init ds) ops)
  ∧ (∀ name v, isupper name = true →
       let h := run_ops (SettingsHolder_init ds) (ops ++ [OpSet name v]) in
       name ∉ _deleted h ∧ h_dict h !! name = Some v)
  ∧ (∀ name, isupper name = true →
       let h := run_ops (SettingsHolder_init ds) (ops ++ [OpDel name]) in
       name ∈ _deleted h ∧ h_dict h !! name = None).
Proof.
  intros _. split_and!.
  - assert (∀ h, flags_exclusive h → flags_exclusive (run_ops h ops))
      as Hall.
    { unfold run_ops. induction ops as [|o ops IH]; intros h Hh; simpl;
        [done|]. by apply IH, run_op_exclusive. }
    apply Hall. intros name [Hdel _]. simpl in Hdel. set_solver.
  - intros name v _ h. subst h. unfold run_ops. rewrite foldl_app. simpl.
    apply SettingsHolder_setattr_flags.
  - intros name _ h. subst h. unfold run_ops. rewrite foldl_app. simpl.
    apply SettingsHolder_delattr_flags.
Qed.

Lemma SettingsHolder_flags_exclusive_witness :
  flags_exclusive
    (run_ops (SettingsHolder_init sample_provider)
       [OpSet "X" (VInt 1); OpDel "X"; OpDel "SETTINGS_MODULE";
        OpSet "X" (VInt 2)]).
Proof.
  apply (SettingsHolder_flags_exclusive sample_provider
           [OpSet "X" (VInt 1); OpDel "X"; OpDel "SETTINGS_MODULE";
            OpSet "X" (VInt 2)]).
  repeat constructor.
Defined.

(** C7: on a holder whose provider defines an option, after the option is
    set and then deleted, reading it raises [AttributeError] although the
    provider still has it; after it is set again, reading it returns the
    new value.  [SETTINGS_MODULE] is left aside: the class has an attribute
    of that name. *)
Theorem SettingsHolder_set_delete_set (h : SettingsHolder) (name : string)
    (d v1 v2 : value) :
  isupper name = true →
  name ≠ "SETTINGS_MODULE" →
  p_getattr (default_settings h) name = Some d →
  let h1 := SettingsHolder_setattr h name v1 in
  let h2 := (SettingsHolder_delattr h1 name).1 in
  let h3 := SettingsHolder_setattr h2 name v2 in
  SettingsHolder_read h1 name = Ok v1
  ∧ (SettingsHolder_delattr h1 name).2 = Ok tt
  ∧ p_getattr (default_settings h2) name = Some d
  ∧ SettingsHolder_read h2 name = Raise AttributeError
  ∧ SettingsHolder_read h3 name = Ok v2.
Proof.
  intros _ Hne Hd h1 h2 h3.
  assert (SettingsHolder_class_attr name = None) as Hc.
  { unfold SettingsHolder_class_attr.
    by destruct (String.eqb_spec name "SETTINGS_MODULE"). }
  assert (h_dict h1 !! name = Some v1) as H1 by apply lookup_insert_eq.
  split_and!.
  - unfold SettingsHolder_read. by rewrite H1.
  - unfold SettingsHolder_delattr, SettingsHolder_hasattr, SettingsHolder_read,
      object_delattr. cbn [h_dict]. by rewrite H1.
  - unfold h2. by rewrite SettingsHolder_delattr_unfold.
  - unfold SettingsHolder_read, SettingsHolder_getattr, h2.
    rewrite SettingsHolder_delattr_unfold. cbn [h_dict _deleted].
    rewrite lookup_delete_eq, Hc.
    rewrite bool_decide_eq_true_2; [done|set_solver].
  - unfold SettingsHolder_read, h3. cbn [SettingsHolder_setattr h_dict].
    by rewrite lookup_insert_eq.
Qed.

Lemma SettingsHolder_set_delete_set_witness :
  let h1 := SettingsHolder_setattr (SettingsHolder_init sample_provider)
              "X" (VInt 1) in
  let h2 := (SettingsHolder_delattr h1 "X").1 in
  SettingsHolder_read h2 "X" = Raise AttributeError
  ∧ SettingsHolder_read (SettingsHolder_setattr h2 "X" (VInt 2)) "X"
    = Ok (VInt 2).
Proof.
  intros h1 h2.
  destruct (SettingsHolder_set_delete_set (SettingsHolder_init sample_provider)
              "X" (VInt 0) (VInt 1) (VInt 2))
    as (_ & _ & _ & Hdel & Hset);
    [reflexivity|discriminate|vm_compute; reflexivity|].
  split; [exact Hdel|exact Hset].
Defined.

(** The class attribute makes [SETTINGS_MODULE] read as [None] after a
    deletion, and the deletion itself raises when the name was not set. *)
Lemma SettingsHolder_SETTINGS_MODULE_deleted :
  (SettingsHolder_delattr sample_holder "SETTINGS_MODULE").2
    = Raise AttributeError
  ∧ SettingsHolder_read (SettingsHolder_delattr sample_holder
                           "SETTINGS_MODULE").1 "SETTINGS_MODULE"
    = Ok VNone.
Proof. split; vm_compute; reflexivity. Qed.

(** ** SettingsHolder: the enumeration *)

Lemma sorted_unique (l1 l2 : list string) :
  l1 ≡ₚ l2 → sorted l1 = sorted l2.
Proof.
  intros H. apply (Sorted_unique String.le); try apply sorted_Sorted.
  by rewrite !sorted_Permutation.
Qed.

(** The order in which the keys of the instance dictionary come does not
    show in the enumeration. *)
Lemma SettingsHolder_dir_any_order (h : SettingsHolder) (keys : list string) :
  keys ≡ₚ SettingsHolder_dict_names h →
  sorted (filter (λ s, s ∉ _deleted h)
                 (keys ++ p_dir (default_settings h))%list)
  = SettingsHolder_dir h.
Proof. intros H. apply sorted_unique. by rewrite H. Qed.

(** C8, as the code has it: the enumeration is the sorted list of the
    keys of the instance dictionary followed by the provider's [dir],
    without the deleted names.  Its names are those of the union less the
    deletion set, but nothing is merged or left out by letter case: a name
    that is explicitly set and also listed by the provider is there twice,
    and the instance's own [_deleted] and [default_settings] are listed. *)
Theorem SettingsHolder_dir_spec (h : SettingsHolder) :
  Sorted String.le (SettingsHolder_dir h)
  ∧ SettingsHolder_dir h ≡ₚ
      filter (λ s, s ∉ _deleted h)
             (SettingsHolder_dict_names h ++ p_dir (default_settings h))%list
  ∧ (∀ name, name ∈ SettingsHolder_dir h ↔
       (name ∈ SettingsHolder_dict_names h
        ∨ name ∈ p_dir (default_settings h))
       ∧ name ∉ _deleted h)
  ∧ (∀ name, is_Some (h_dict h !! name) →
       name ∈ p_dir (default_settings h) →
       name ∉ _deleted h →
       ¬ NoDup (SettingsHolder_dir h))
  ∧ ("_deleted" ∉ _deleted h → "_deleted" ∈ SettingsHolder_dir h).
Proof.
  assert (∀ name, name ∈ SettingsHolder_dir h ↔
            (name ∈ SettingsHolder_dict_names h
             ∨ name ∈ p_dir (default_settings h))
            ∧ name ∉ _deleted h) as Hin.
  { intros name. unfold SettingsHolder_dir.
    rewrite elem_of_sorted, list_elem_of_filter, elem_of_app. tauto. }
  split_and!.
  - apply sorted_Sorted.
  - apply sorted_Permutation.
  - exact Hin.
  - intros name Hset Hdef Hdel Hnd.
    unfold SettingsHolder_dir in Hnd. rewrite sorted_Permutation in Hnd.
    rewrite filter_app in Hnd. apply NoDup_app in Hnd as (_ & Hdisj & _).
    apply (Hdisj name); apply list_elem_of_filter; split; try done.
    unfold SettingsHolder_dict_names. rewrite !elem_of_cons. do 2 right.
    by apply elem_of_elements, elem_of_dom.
  - intros Hd. apply Hin. split; [|done]. left.
    unfold SettingsHolder_dict_names. apply elem_of_cons. by left.
Qed.

Lemma SettingsHolder_dir_spec_witness :
  "_deleted" ∈ SettingsHolder_dir sample_holder
  ∧ ¬ NoDup (SettingsHolder_dir sample_holder).
Proof.
  destruct (SettingsHolder_dir_spec sample_holder)
    as (_ & _ & _ & Hdup & Hint).
  split.
  - apply Hint. cbn [sample_holder SettingsHolder_setattr _deleted].
    intros H. apply elem_of_difference in H as [H _].
    by apply elem_of_empty in H.
  - apply (Hdup "X").
    + cbn [sample_holder SettingsHolder_setattr h_dict].
      rewrite lookup_insert_eq. by eexists.
    + apply elem_of_py_dir. exists (VInt 0). vm_compute. reflexivity.
    + cbn [sample_holder SettingsHolder_setattr _deleted].
      intros H. apply elem_of_difference in H as [H _].
      by apply elem_of_empty in H.
Defined.

(** C8 as the specification words it does not hold: on a holder over a
    provider that defines [X], after [X] is set, the enumeration has [X]
    twice and has the lower-case names [__name__], [_deleted] and
    [default_settings], where the specification has [X] alone. *)
Lemma SettingsHolder_dir_not_a_set :
  SettingsHolder_dir sample_holder
    = ["X"; "X"; "__name__"; "_deleted"; "default_settings"]
  ∧ list_names_spec sample_holder = ["X"]
  ∧ SettingsHolder_dir sample_holder ≠ list_names_spec sample_holder.
Proof.
  assert (SettingsHolder_dir sample_holder
          = ["X"; "X"; "__name__"; "_deleted"; "default_settings"]) as H1
    by (vm_compute; reflexivity).
  assert (list_names_spec sample_holder = ["X"]) as H2
    by (vm_compute; reflexivity).
  split_and!; [exact H1|exact H2|]. rewrite H1, H2. discriminate.
Qed.

(** ** LazySettings: writes and the local cache *)

Lemma LazySettings_set_wrapped (p : LazySettings) (x : pyobj) :
  LazySettings_setattr p "_wrapped" x = {| _wrapped := x; l_dict := ∅ |}.
Proof. reflexivity. Qed.

Lemma LazySettings_invalidate_other (p : LazySettings) (name other : string) :
  name ≠ "_wrapped" → other ≠ name →
  l_dict (LazySettings_invalidate p name) !! other = l_dict p !! other.
Proof.
  intros Hw Hne. unfold LazySettings_invalidate.
  destruct (String.eqb_spec name "_wrapped"); [done|]. simpl.
  by rewrite lookup_delete_ne.
Qed.

(** C2, as the code has it: a write to the backing-object slot [_wrapped]
    clears the whole local cache; a write to any other name drops the
    cached value of that name only, and every other cached name stays as
    it was. *)
Theorem LazySettings_setattr_cache (p : LazySettings) (name : string)
    (x : pyobj) :
  (name = "_wrapped" →
     l_dict (LazySettings_setattr p name x) = ∅
     ∧ _wrapped (LazySettings_setattr p name x) = x)
  ∧ (name ≠ "_wrapped" →
       l_dict (LazySettings_invalidate p name) !! name = None
       ∧ _wrapped (LazySettings_setattr p name x) = _wrapped p
       ∧ ∀ other, other ≠ name →
           l_dict (LazySettings_invalidate p name) !! other
             = l_dict p !! other
           ∧ l_dict (LazySettings_setattr p name x) !! other
             = l_dict p !! other).
Proof.
  split.
  - intros ->. by rewrite LazySettings_set_wrapped.
  - intros Hw. unfold LazySettings_setattr, LazyObject_setattr,
      LazySettings_invalidate.
    destruct (String.eqb_spec name "_wrapped"); [done|]. simpl.
    split_and!; [apply lookup_delete_eq|done|]. intros other Hne.
    rewrite lookup_insert_ne by done. by rewrite lookup_delete_ne.
Qed.

Lemma LazySettings_setattr_cache_witness :
  l_dict (LazySettings_setattr proxy_AB "_wrapped" Empty) = ∅
  ∧ l_dict (LazySettings_setattr proxy_AB "B" (Plain (VInt 3))) !! "A"
    = l_dict proxy_AB !! "A".
Proof.
  split.
  - apply (LazySettings_setattr_cache proxy_AB "_wrapped" Empty). reflexivity.
  - apply (LazySettings_setattr_cache proxy_AB "B" (Plain (VInt 3)));
      discriminate.
Defined.

(** C2 as the specification words it does not hold: with [A] and [B] both
    in the local cache, writing [B] leaves the cached value of [A] where
    it was. *)
Lemma write_keeps_other_cached_name :
  l_dict proxy_AB !! "A" = Some (Plain (VInt 1))
  ∧ l_dict (LazySettings_invalidate proxy_AB "B") !! "A"
    = Some (Plain (VInt 1))
  ∧ l_dict (LazySettings_setattr proxy_AB "B" (Plain (VInt 3))) !! "A"
    = Some (Plain (VInt 1)).
Proof. split_and!; vm_compute; reflexivity. Qed.

(** ** LazySettings: resolution on first read *)

Lemma LazySettings_getattr_unset (w : World) (p : LazySettings)
    (name : string) :
  _wrapped p = Empty →
  str_truthy (environ w !! ENVIRONMENT_VARIABLE) = false →
  LazySettings_getattr w p name
  = (w, p, Raise (ImproperlyConfigured (unconfigured_msg (Some name)))).
Proof.
  intros Hp He. unfold LazySettings_getattr, LazySettings_setup.
  by rewrite Hp, He.
Qed.

Lemma LazySettings_getattr_resolves (w w' : World) (p : LazySettings)
    (path name : string) (s : Settings) (v : value) :
  _wrapped p = Empty →
  environ w !! ENVIRONMENT_VARIABLE = Some path →
  path ≠ EmptyString →
  Settings_init w path = Ok (w', s) →
  Settings_getattr s name = Ok v →
  LazySettings_getattr w p name
  = (w', {| _wrapped := Resolved s; l_dict := {[ name := Plain v ]} |},
     Ok (Plain v)).
Proof.
  intros Hp He Hne Hs Hv. unfold LazySettings_getattr, LazySettings_setup.
  rewrite Hp, He. simpl.
  destruct (String.eqb_spec path EmptyString); [done|]. simpl.
  rewrite Hs, LazySettings_set_wrapped. simpl.
  rewrite Hv. by rewrite insert_empty.
Qed.

Lemma unconfigured_msg_names (name : string) :
  name ≠ EmptyString →
  unconfigured_msg (Some name) =
    "Requested setting " ++ name
    ++ ", but settings are not configured. You must either define the "
    ++ "environment variable SKULD_SETTINGS_MODULE or call "
    ++ "settings.configure() before accessing settings.".
Proof.
  intros Hne. unfold unconfigured_msg, str_truthy.
  destruct (String.eqb_spec name EmptyString); [done|]. reflexivity.
Qed.

Lemma isupper_nonempty (name : string) :
  isupper name = true → name ≠ EmptyString.
Proof. by intros H ->. Qed.

(** C5: reading an option on an Unconfigured proxy while the selector
    variable is unset raises a Misconfiguration error whose message has
    the name of the option in it, and leaves the proxy as it was, still
    Unconfigured; a later read from that proxy, made once the variable
    names a module from which [Settings] can be built, binds the proxy
    and returns the option. *)
Theorem unset_selector_read_fails (w : World) (p : LazySettings)
    (name : string) :
  isupper name = true →
  _wrapped p = Empty →
  l_dict p !! name = None →
  environ w !! ENVIRONMENT_VARIABLE = None →
  (∃ msg, LazySettings_read w p name = (w, p, Raise (ImproperlyConfigured msg))
          ∧ ∃ before after, msg = before ++ name ++ after)
  ∧ LazySettings_configured p = false
  ∧ (∀ w2 w3 path s later v,
       isupper later = true →
       l_dict p !! later = None →
       environ w2 !! ENVIRONMENT_VARIABLE = Some path →
       path ≠ EmptyString →
       Settings_init w2 path = Ok (w3, s) →
       Settings_getattr s later = Ok v →
       ∃ p', LazySettings_read w2 p later = (w3, p', Ok (Plain v))
             ∧ LazySettings_configured p' = true
             ∧ _wrapped p' = Resolved s).
Proof.
  intros Hu Hp Hc He. split_and!.
  - exists (unconfigured_msg (Some name)). split.
    + unfold LazySettings_read. rewrite Hc.
      apply LazySettings_getattr_unset; [done|]. by rewrite He.
    + rewrite unconfigured_msg_names by by apply isupper_nonempty.
      by eexists "Requested setting ", _.
  - unfold LazySettings_configured. by rewrite Hp.
  - intros w2 w3 path s later v _ Hc2 He2 Hne Hs Hv.
    eexists. unfold LazySettings_read. rewrite Hc2.
    rewrite (LazySettings_getattr_resolves _ _ _ _ _ _ _ Hp He2 Hne Hs Hv).
    done.
Qed.

Lemma unset_selector_read_fails_witness :
  (∃ msg, LazySettings_read world_unset LazyObject_init "DEBUG"
          = (world_unset, LazyObject_init, Raise (ImproperlyConfigured msg))
          ∧ ∃ before after, msg = before ++ "DEBUG" ++ after)
  ∧ ∃ w3 p', LazySettings_read world_site LazyObject_init "DEBUG"
             = (w3, p', Ok (Plain (VBool true)))
             ∧ LazySettings_configured p' = true.
Proof.
  destruct (unset_selector_read_fails world_unset LazyObject_init "DEBUG")
    as (Hfail & _ & Hretry); [reflexivity..|].
  split; [exact Hfail|].
  assert (∃ x, Settings_init world_site "site" = Ok x) as [[w3 s] Hs].
  { vm_compute. eexists. reflexivity. }
  assert (Settings_getattr s "DEBUG" = Ok (VBool true)) as Hv.
  { assert (importable world_site !! "site" = Some site_plain) as Hi
      by (vm_compute; reflexivity).
    destruct (Settings_init_lookup _ _ _ _ _ "DEBUG" Hi Hs) as [Hl _].
    unfold Settings_getattr. rewrite Hl. reflexivity. }
  destruct (Hretry world_site w3 "site" s "DEBUG" (VBool true))
    as (p' & Hread & Hconf & _);
    [reflexivity|reflexivity|vm_compute; reflexivity|discriminate
    |exact Hs|exact Hv|].
  exists w3, p'. by split.
Defined.

(** C10: with the selector variable set to the empty string, the first
    read of an option raises the Misconfiguration error of the unset case
    and leaves the world and the proxy as they were; no module is looked
    for, whatever modules there are. *)
Theorem blank_selector_as_unset (w : World) (p : LazySettings)
    (name : string) :
  isupper name = true →
  _wrapped p = Empty →
  l_dict p !! name = None →
  environ w !! ENVIRONMENT_VARIABLE = Some EmptyString →
  LazySettings_read w p name
  = (w, p, Raise (ImproperlyConfigured (unconfigured_msg (Some name))))
  ∧ ∀ w0, environ w0 !! ENVIRONMENT_VARIABLE = None →
          LazySettings_read w0 p name
          = (w0, p,
             Raise (ImproperlyConfigured (unconfigured_msg (Some name)))).
Proof.
  intros _ Hp Hc He. unfold LazySettings_read. rewrite Hc. split.
  - apply LazySettings_getattr_unset; [done|]. by rewrite He.
  - intros w0 He0. apply LazySettings_getattr_unset; [done|]. by rewrite He0.
Qed.

Lemma blank_selector_as_unset_witness :
  importable world_blank !! EmptyString = Some site_plain
  ∧ LazySettings_read world_blank LazyObject_init "DEBUG"
    = (world_blank, LazyObject_init,
       Raise (ImproperlyConfigured (unconfigured_msg (Some "DEBUG"))))
  ∧ LazySettings_read world_unset LazyObject_init "DEBUG"
    = (world_unset, LazyObject_init,
       Raise (ImproperlyConfigured (unconfigured_msg (Some "DEBUG")))).
Proof.
  destruct (blank_selector_as_unset world_blank LazyObject_init "DEBUG")
    as [Hblank Hunset]; [reflexivity..|].
  split_and!; [reflexivity|exact Hblank|].
  apply Hunset. reflexivity.
Defined.

(** ** LazySettings: explicit configuration *)

Lemma apply_options_other (options : list (string * value))
    (h : SettingsHolder) (name : string) :
  name ∉ options.*1 →
  h_dict (apply_options h options) !! name = h_dict h !! name.
Proof.
  revert h. induction options as [|[n v] options IH]; intros h Hn; [done|].
  cbn [apply_options foldl].
  fold (apply_options (SettingsHolder_setattr h n v) options).
  rewrite fmap_cons, not_elem_of_cons in Hn. destruct Hn as [Hne Hn].
  rewrite IH by done. simpl. by rewrite lookup_insert_ne.
Qed.

Lemma apply_options_lookup (options : list (string * value))
    (h : SettingsHolder) (name : string) (v : value) :
  NoDup options.*1 → (name, v) ∈ options →
  h_dict (apply_options h options) !! name = Some v.
Proof.
  revert h. induction options as [|[n v'] options IH]; intros h Hnd Hin.
  - by apply elem_of_nil in Hin.
  - cbn [apply_options foldl].
    fold (apply_options (SettingsHolder_setattr h n v') options).
    rewrite fmap_cons in Hnd. apply NoDup_cons in Hnd as [Hfresh Hnd].
    apply elem_of_cons in Hin as [[= -> ->]|Hin].
    + rewrite apply_options_other by done. simpl. apply lookup_insert_eq.
    + by apply IH.
Qed.

Lemma LazySettings_configure_bound (q : LazySettings) (ds : provider)
    (options : list (string * value)) :
  LazySettings_configured q = true →
  LazySettings_configure q ds options
  = (q, Raise (RuntimeError "Settings already configured.")).
Proof.
  unfold LazySettings_configured, LazySettings_configure.
  by destruct (_wrapped q).
Qed.

(** C6: [configure] on an Unconfigured proxy, with options whose names
    are upper case, binds it to a holder that has the options given;
    reading one of them through the proxy returns its value, and
    [configured] is true.  On a Bound proxy [configure] raises
    [RuntimeError] and returns the proxy as it was. *)
Theorem configure_binds (p : LazySettings) (ds : provider)
    (options : list (string * value)) (name : string) (v : value) :
  _wrapped p = Empty →
  Forall (λ nv, isupper nv.1 = true) options →
  isupper name = true →
  NoDup options.*1 →
  (name, v) ∈ options →
  let p1 := (LazySettings_configure p ds options).1 in
  (LazySettings_configure p ds options).2 = Ok tt
  ∧ LazySettings_configured p1 = true
  ∧ (∀ w, ∃ p2, LazySettings_read w p1 name = (w, p2, Ok (Plain v))
                ∧ _wrapped p2 = _wrapped p1
                ∧ LazySettings_configured p2 = true)
  ∧ (∀ q ds' options',
       LazySettings_configured q = true →
       LazySettings_configure q ds' options'
       = (q, Raise (RuntimeError "Settings already configured."))).
Proof.
  intros Hp _ _ Hnd Hin p1.
  assert (p1 = {| _wrapped := Holder (apply_options (SettingsHolder_init ds)
                                        options);
                  l_dict := ∅ |}) as Hp1.
  { unfold p1, LazySettings_configure. by rewrite Hp. }
  split_and!.
  - unfold LazySettings_configure. by rewrite Hp.
  - by rewrite Hp1.
  - intros w. eexists. rewrite Hp1. unfold LazySettings_read.
    cbn [l_dict]. rewrite lookup_empty. unfold LazySettings_getattr. simpl.
    unfold SettingsHolder_read.
    rewrite (apply_options_lookup _ _ _ _ Hnd Hin). done.
  - intros q ds' options'. apply LazySettings_configure_bound.
Qed.

Lemma configure_binds_witness :
  let p1 := (LazySettings_configure LazyObject_init
               (module_provider sample_catalog) [("FOO", VStr "bar")]).1 in
  LazySettings_configured p1 = true
  ∧ (∃ p2, LazySettings_read world_unset p1 "FOO"
           = (world_unset, p2, Ok (Plain (VStr "bar"))))
  ∧ LazySettings_configure p1 (module_provider sample_catalog) []
    = (p1, Raise (RuntimeError "Settings already configured.")).
Proof.
  intros p1.
  destruct (configure_binds LazyObject_init (module_provider sample_catalog)
              [("FOO", VStr "bar")] "FOO" (VStr "bar"))
    as (_ & Hconf & Hread & Hagain).
  - reflexivity.
  - repeat constructor.
  - reflexivity.
  - apply NoDup_singleton.
  - apply elem_of_cons. by left.
  - split_and!; [exact Hconf| |by apply Hagain].
    destruct (Hread world_unset) as (p2 & H & _). by exists p2.
Defined.

(** * Further properties *)

(** ** Settings: the constructed instance *)

Lemma sample_site_constructs :
  ∃ x, Settings_init world_site "site" = Ok x.
Proof. vm_compute. eexists. reflexivity. Qed.

Lemma world_site_imports : importable world_site !! "site" = Some site_plain.
Proof. vm_compute. reflexivity. Qed.

(** X1: a name that is not upper case is never copied, from the catalog
    or from the module: after a construction the instance dictionary has
    no entry of that name besides [_explicit_settings], and the name is
    not in the explicit set. *)
Theorem Settings_lower_case_absent (w w' : World) (path : string)
    (s : Settings) (name : string) :
  Settings_init w path = Ok (w', s) →
  isupper name = false →
  s_dict s !! name = None
  ∧ name ∉ _explicit_settings s
  ∧ Settings_is_overridden s name = false.
Proof.
  intros Hs Hu. apply Settings_init_ok in Hs as (mod_ & _ & Ho).
  destruct (overlaid_lookup _ _ _ _ _ name Ho) as [Hl He].
  unfold module_value, catalog_value in *. rewrite Hu in *.
  destruct (String.eqb_spec name "SETTINGS_MODULE") as [->|_];
    [by vm_compute in Hu|].
  assert (name ∉ _explicit_settings s) as Hn
    by (rewrite He; by intros [? ?]).
  split_and!; [done|done|].
  unfold Settings_is_overridden. by apply bool_decide_eq_false_2.
Qed.

Lemma Settings_lower_case_absent_witness :
  global_settings world_site !! "__name__"
    = Some (VStr "skuld.conf.global_settings")
  ∧ ∃ w' s, Settings_init world_site "site" = Ok (w', s)
            ∧ s_dict s !! "__name__" = None.
Proof.
  split; [vm_compute; reflexivity|].
  destruct sample_site_constructs as [[w' s] Hs]. exists w', s.
  split; [exact Hs|].
  apply (Settings_lower_case_absent world_site w' "site" s "__name__" Hs).
  reflexivity.
Defined.

(** X2: a constructed [Settings] has a [SECRET_KEY], and it is truthy. *)
Theorem Settings_SECRET_KEY_truthy (w w' : World) (path : string)
    (s : Settings) :
  Settings_init w path = Ok (w', s) →
  ∃ k, Settings_getattr s "SECRET_KEY" = Ok k ∧ truthy k = true.
Proof.
  rewrite Settings_init_unfold.
  destruct (import_module w path) as [mod_|]; [|done]. simpl.
  destruct (overlaid w path mod_) as [ae|]; [|done]. simpl.
  unfold check_secret_key, Settings_getattr.
  destruct (ae.1 !! "SECRET_KEY") as [k|] eqn:Hk; [|done].
  destruct (truthy k) eqn:Ht; [|done]. simpl.
  destruct (apply_time_zone w ae.1); [|done]. simpl.
  intros [= _ <-]. simpl. rewrite Hk. by exists k.
Qed.

Lemma Settings_SECRET_KEY_truthy_witness :
  ∃ w' s k, Settings_init world_site "site" = Ok (w', s)
            ∧ Settings_getattr s "SECRET_KEY" = Ok k ∧ truthy k = true.
Proof.
  destruct sample_site_constructs as [[w' s] Hs].
  destruct (Settings_SECRET_KEY_truthy world_site w' "site" s Hs) as [k Hk].
  exists w', s, k. split; [exact Hs|exact Hk].
Defined.

(** ** Settings: what the module loop refuses *)

Lemma overlay_passed (mod_ : gmap string value) (names : list string)
    (attrs : gmap string value) (explicit : gset string) :
  is_ok (overlay mod_ names attrs explicit) = true →
  ∀ name, name ∈ names → refused mod_ name = false.
Proof.
  revert attrs explicit.
  induction names as [|setting rest IH]; intros attrs explicit H name Hin.
  - by apply elem_of_nil in Hin.
  - cbn [overlay] in H. unfold refused, module_value in *.
    destruct (isupper setting) eqn:Hu.
    + destruct (mod_ !! setting) as [v|] eqn:Hm; [|done].
      destruct (str_contains setting tuple_settings
                && negb (is_list_or_tuple v)) eqn:Hr; [done|].
      apply elem_of_cons in Hin as [->|Hin]; [|by eapply IH].
      by rewrite Hu, Hm.
    + apply elem_of_cons in Hin as [->|Hin]; [|by eapply IH].
      by rewrite Hu.
Qed.

Lemma overlay_raised (mod_ : gmap string value) (names : list string)
    (attrs : gmap string value) (explicit : gset string) (e : exn) :
  (∀ name, name ∈ names → is_Some (mod_ !! name)) →
  overlay mod_ names attrs explicit = Raise e →
  ∃ before name after,
    names = (before ++ name :: after)%list
    ∧ refused mod_ name = true
    ∧ e = ImproperlyConfigured (must_be_sequence_msg name)
    ∧ ∀ other, other ∈ before → refused mod_ other = false.
Proof.
  revert attrs explicit.
  induction names as [|setting rest IH]; intros attrs explicit Hdom H;
    [done|].
  cbn [overlay] in H.
  assert (∀ name, name ∈ rest → is_Some (mod_ !! name)) as Hdom'
    by (intros name Hin; apply Hdom, elem_of_cons; by right).
  destruct (isupper setting) eqn:Hu.
  - destruct (Hdom setting) as [v Hm]; [apply elem_of_cons; by left|].
    rewrite Hm in H.
    destruct (str_contains setting tuple_settings
              && negb (is_list_or_tuple v)) eqn:Hr.
    + injection H as <-. exists [], setting, rest. split_and!; try done.
      * unfold refused, module_value. by rewrite Hu, Hm.
      * intros other Hin. by apply elem_of_nil in Hin.
    + destruct (IH _ _ Hdom' H) as (before & name & after & -> & ? & ? & Hb).
      exists (setting :: before), name, after. split_and!; try done.
      intros other Hin. apply elem_of_cons in Hin as [->|Hin]; [|by apply Hb].
      unfold refused, module_value. by rewrite Hu, Hm.
  - destruct (IH _ _ Hdom' H) as (before & name & after & -> & ? & ? & Hb).
    exists (setting :: before), name, after. split_and!; try done.
    intros other Hin. apply elem_of_cons in Hin as [->|Hin]; [|by apply Hb].
    unfold refused, module_value. by rewrite Hu.
Qed.

Lemma refused_in_dir (mod_ : gmap string value) (name : string) :
  refused mod_ name = true → name ∈ py_dir mod_.
Proof.
  unfold refused, module_value. intros H. apply elem_of_py_dir.
  destruct (isupper name); [|done]. by destruct (mod_ !! name).
Qed.

(** X3: the module loop raises exactly when the module has an attribute
    it refuses, and the error then names the refused attribute that comes
    first in the order of [dir(mod)]. *)
Theorem overlay_names_first_refused (w : World) (path : string)
    (mod_ : gmap string value) :
  (is_ok (overlaid w path mod_) = false ↔ ∃ name, refused mod_ name = true)
  ∧ (∀ e, overlaid w path mod_ = Raise e →
       ∃ name,
         refused mod_ name = true
         ∧ e = ImproperlyConfigured (must_be_sequence_msg name)
         ∧ ∀ other, refused mod_ other = true → String.le name other).
Proof.
  assert (∀ e, overlaid w path mod_ = Raise e →
            ∃ name,
              refused mod_ name = true
              ∧ e = ImproperlyConfigured (must_be_sequence_msg name)
              ∧ ∀ other, refused mod_ other = true → String.le name other)
    as Hraise.
  { intros e H. apply overlay_raised in H
      as (before & name & after & Hdir & Hr & -> & Hb);
      [|by intros name ?%elem_of_py_dir].
    exists name. split_and!; try done. intros other Ho.
    pose proof (refused_in_dir _ _ Ho) as Hin. rewrite Hdir in Hin.
    pose proof (sorted_Sorted (elements (dom mod_))) as Hs.
    apply Sorted_StronglySorted in Hs; [|apply _].
    fold (py_dir mod_) in Hs. rewrite Hdir in Hs.
    apply StronglySorted_app_1_r in Hs.
    apply elem_of_app in Hin as [Hin|Hin].
    - apply Hb in Hin. congruence.
    - apply elem_of_cons in Hin as [->|Hin]; [done|].
      apply StronglySorted_inv in Hs as [_ Hall].
      by eapply Forall_forall in Hall. }
  split; [|exact Hraise]. split.
  - intros H. destruct (overlaid w path mod_) as [|e] eqn:Ho; [done|].
    destruct (Hraise e eq_refl) as (name & ? & _). by exists name.
  - intros [name Hr]. destruct (is_ok (overlaid w path mod_)) eqn:Ho; [|done].
    pose proof (overlay_passed _ _ _ _ Ho name (refused_in_dir _ _ Hr)).
    congruence.
Qed.

Lemma overlay_names_first_refused_witness :
  refused site_two_refused "INSTALLED_APPS" = true
  ∧ ∃ name,
      overlaid (sample_world sample_catalog site_two_refused) "site"
        site_two_refused
      = Raise (ImproperlyConfigured (must_be_sequence_msg name))
      ∧ String.le name "INSTALLED_APPS".
Proof.
  assert (refused site_two_refused "INSTALLED_APPS" = true) as Hr
    by (vm_compute; reflexivity).
  split; [exact Hr|].
  destruct (overlay_names_first_refused
              (sample_world sample_catalog site_two_refused) "site"
              site_two_refused) as [_ Hraise].
  destruct (Hraise (ImproperlyConfigured (must_be_sequence_msg "APPS")))
    as (name & _ & Hn & Hle); [vm_compute; reflexivity|].
  exists name. split; [|by apply Hle].
  rewrite <- Hn. vm_compute. reflexivity.
Defined.

(** X4: on a constructed [Settings], an [INSTALLED_APPS] that the module
    overrides is a list or a tuple. *)
Theorem overridden_INSTALLED_APPS_sequence (w w' : World) (path : string)
    (s : Settings) :
  Settings_init w path = Ok (w', s) →
  Settings_is_overridden s "INSTALLED_APPS" = true →
  ∃ v, Settings_getattr s "INSTALLED_APPS" = Ok v
       ∧ is_list_or_tuple v = true.
Proof.
  intros Hs Hov. apply Settings_init_ok in Hs as (mod_ & _ & Ho).
  destruct (overlaid_lookup _ _ _ _ _ "INSTALLED_APPS" Ho) as [Hl He].
  apply bool_decide_eq_true_1, He in Hov as [v Hv].
  exists v. unfold Settings_getattr. rewrite Hl, Hv. split; [done|].
  assert (is_ok (overlaid w path mod_) = true) as Hok by by rewrite Ho.
  pose proof (overlay_passed _ _ _ _ Hok "INSTALLED_APPS") as Hp.
  unfold refused in Hp. rewrite Hv in Hp.
  assert (str_contains "INSTALLED_APPS" tuple_settings = true) as Hin
    by (vm_compute; reflexivity).
  rewrite Hin in Hp. simpl in Hp.
  destruct (is_list_or_tuple v); [done|]. discriminate Hp.
  apply elem_of_py_dir. unfold module_value in Hv.
  destruct (isupper "INSTALLED_APPS"); [by eexists|done].
Qed.

Lemma overridden_INSTALLED_APPS_sequence_witness :
  ∃ w' s v,
    Settings_init (sample_world sample_catalog site_apps_list) "site"
      = Ok (w', s)
    ∧ Settings_getattr s "INSTALLED_APPS" = Ok v
    ∧ is_list_or_tuple v = true.
Proof.
  assert (∃ x, Settings_init (sample_world sample_catalog site_apps_list)
                 "site" = Ok x) as [[w' s] Hs]
    by (vm_compute; eexists; reflexivity).
  destruct (overridden_INSTALLED_APPS_sequence _ w' "site" s Hs) as [v Hv].
  - assert (importable (sample_world sample_catalog site_apps_list) !! "site"
            = Some site_apps_list) as Hi by (vm_compute; reflexivity).
    destruct (Settings_init_lookup _ _ _ _ _ "INSTALLED_APPS" Hi Hs)
      as [_ He].
    apply bool_decide_eq_true_2, He. eexists. vm_compute. reflexivity.
  - exists w', s, v. split; [exact Hs|exact Hv].
Defined.

(** ** Settings: the environment after construction *)



(** X6: when neither the catalog nor the module has a [SECRET_KEY], a
    module that passes the loop makes construction raise [AttributeError],
    not a Misconfiguration error. *)
Theorem SECRET_KEY_nowhere (w : World) (path : string)
    (mod_ : gmap string value) :
  importable w !! path = Some mod_ →
  is_ok (overlaid w path mod_) = true →
  resolved_value w mod_ "SECRET_KEY" = None →
  Settings_init w path = Raise AttributeError.
Proof.
  intros Hm Hok Hn. destruct (overlaid w path mod_) as [ae|] eqn:Ho; [|done].
  pose proof (overlaid_SECRET_KEY _ _ _ _ Ho) as Hk.
  rewrite Settings_init_unfold. unfold import_module. rewrite Hm. simpl.
  rewrite Ho. simpl. unfold check_secret_key. by rewrite Hk, Hn.
Qed.

Lemma SECRET_KEY_nowhere_witness :
  Settings_init (sample_world catalog_no_key {[ "DEBUG" := VBool true ]})
    "site"
  = Raise AttributeError.
Proof.
  apply (SECRET_KEY_nowhere _ "site" {[ "DEBUG" := VBool true ]});
    vm_compute; reflexivity.
Defined.

(** ** SettingsHolder: reads, deletions and the customized names *)

Lemma run_ops_exclusive (ds : provider) (ops : list holder_op) :
  flags_exclusive (run_ops (SettingsHolder_init ds) ops).
Proof.
  assert (∀ h, flags_exclusive h → flags_exclusive (run_ops h ops)) as Hall.
  { unfold run_ops. induction ops as [|o ops IH]; intros h Hh; simpl;
      [done|]. by apply IH, run_op_exclusive. }
  apply Hall. intros name [Hdel _]. simpl in Hdel.
  by apply elem_of_empty in Hdel.
Qed.

Lemma run_ops_default_settings (h : SettingsHolder) (ops : list holder_op) :
  default_settings (run_ops h ops) = default_settings h.
Proof.
  unfold run_ops. revert h. induction ops as [|o ops IH]; intros h; simpl;
    [done|]. rewrite IH. destruct o as [n v|n]; simpl; [done|].
  by rewrite SettingsHolder_delattr_unfold.
Qed.

Lemma SettingsHolder_class_attr_other (name : string) :
  name ≠ "SETTINGS_MODULE" → SettingsHolder_class_attr name = None.
Proof.
  intros Hne. unfold SettingsHolder_class_attr.
  by destruct (String.eqb_spec name "SETTINGS_MODULE").
Qed.

(** X7: on a holder reached from a fresh one by writes and deletions of
    option names, reading an option agrees with the three-state reading
    (deleted, explicitly set, inherited from the provider), although the
    code looks at the instance dictionary before the deletion set.  The
    one exception is [SETTINGS_MODULE], which reads as the value set on
    the holder or else as the class attribute [None], never as the
    provider's value and never as [AttributeError]. *)
Theorem SettingsHolder_read_three_state (ds : provider)
    (ops : list holder_op) (name : string) :
  Forall (λ o, isupper (op_name o) = true) ops →
  isupper name = true →
  let h := run_ops (SettingsHolder_init ds) ops in
  SettingsHolder_read h name =
    if String.eqb name "SETTINGS_MODULE"
    then Ok (default VNone (h_dict h !! name))
    else three_state_get h name.
Proof.
  intros _ _ h. pose proof (run_ops_exclusive ds ops name) as Hex.
  fold h in Hex. unfold SettingsHolder_read, three_state_get.
  destruct (h_dict h !! name) as [v|] eqn:Hd.
  - destruct (String.eqb name "SETTINGS_MODULE"); [done|].
    rewrite bool_decide_eq_false_2; [done|].
    intros Hdel. apply Hex. split; [done|by eexists].
  - destruct (String.eqb_spec name "SETTINGS_MODULE") as [->|Hne]; [done|].
    rewrite SettingsHolder_class_attr_other by done. reflexivity.
Qed.

Lemma SettingsHolder_read_three_state_witness :
  SettingsHolder_read
    (run_ops (SettingsHolder_init sample_provider)
       [OpSet "X" (VInt 1); OpDel "X"]) "X"
  = Raise AttributeError
  ∧ SettingsHolder_read
      (run_ops (SettingsHolder_init sample_provider)
         [OpDel "SETTINGS_MODULE"]) "SETTINGS_MODULE"
    = Ok VNone.
Proof.
  split.
  - rewrite (SettingsHolder_read_three_state sample_provider
               [OpSet "X" (VInt 1); OpDel "X"] "X");
      [vm_compute; reflexivity|repeat constructor|reflexivity].
  - rewrite (SettingsHolder_read_three_state sample_provider
               [OpDel "SETTINGS_MODULE"] "SETTINGS_MODULE");
      [vm_compute; reflexivity|repeat constructor|reflexivity].
Defined.

(** X8: a write or a deletion of one option changes the reading of no
    other option. *)
Theorem SettingsHolder_other_names_kept (h : SettingsHolder)
    (name other : string) (v : value) :
  isupper name = true →
  isupper other = true →
  other ≠ name →
  SettingsHolder_read (SettingsHolder_setattr h name v) other
    = SettingsHolder_read h other
  ∧ SettingsHolder_read (SettingsHolder_delattr h name).1 other
    = SettingsHolder_read h other.
Proof.
  intros _ _ Hne. rewrite SettingsHolder_delattr_unfold.
  unfold SettingsHolder_read, SettingsHolder_getattr. simpl.
  rewrite lookup_insert_ne, lookup_delete_ne by done.
  assert (bool_decide (other ∈ _deleted h ∖ {[name]})
          = bool_decide (other ∈ _deleted h)) as ->
    by (apply bool_decide_ext; set_solver).
  assert (bool_decide (other ∈ {[name]} ∪ _deleted h)
          = bool_decide (other ∈ _deleted h)) as ->
    by (apply bool_decide_ext; set_solver).
  done.
Qed.

Lemma SettingsHolder_other_names_kept_witness :
  SettingsHolder_read (SettingsHolder_delattr sample_holder "Y").1 "X"
  = SettingsHolder_read sample_holder "X".
Proof.
  apply (SettingsHolder_other_names_kept sample_holder "Y" "X" VNone);
    [reflexivity|reflexivity|discriminate].
Defined.

Lemma SettingsHolder_delattr_result (h : SettingsHolder) (name : string) :
  (SettingsHolder_delattr h name).2 =
    match h_dict h !! name with
    | Some _ => Ok tt
    | None => if String.eqb name "SETTINGS_MODULE" then Raise AttributeError
              else Ok tt
    end.
Proof.
  unfold SettingsHolder_delattr, SettingsHolder_hasattr, SettingsHolder_read,
    SettingsHolder_getattr, object_delattr, SettingsHolder_class_attr.
  cbn [h_dict _deleted].
  destruct (h_dict h !! name) eqn:Hd; cbn [snd]; [done|].
  destruct (String.eqb name "SETTINGS_MODULE"); cbn [snd].
  - done.
  - rewrite bool_decide_eq_true_2; [done|].
    apply elem_of_union_l, elem_of_singleton. reflexivity.
Qed.

(** X9: deleting an option raises only in one case, [SETTINGS_MODULE]
    that was not set on the holder; any other deletion succeeds, also of
    a name that neither the holder nor the provider has.  Whether it
    raises or not the name is deleted afterwards, a second deletion
    changes nothing, and an option other than [SETTINGS_MODULE] then
    reads as [AttributeError] whatever the provider has. *)
Theorem SettingsHolder_delattr_outcome (h : SettingsHolder) (name : string) :
  isupper name = true →
  let h' := (SettingsHolder_delattr h name).1 in
  ((SettingsHolder_delattr h name).2 = Raise AttributeError
     ↔ name = "SETTINGS_MODULE" ∧ h_dict h !! name = None)
  ∧ ((SettingsHolder_delattr h name).2 = Ok tt
       ↔ ¬ (name = "SETTINGS_MODULE" ∧ h_dict h !! name = None))
  ∧ name ∈ _deleted h'
  ∧ (SettingsHolder_delattr h' name).1 = h'
  ∧ (name ≠ "SETTINGS_MODULE" →
       SettingsHolder_read h' name = Raise AttributeError).
Proof.
  intros _ h'. split_and!.
  - rewrite SettingsHolder_delattr_result.
    destruct (h_dict h !! name) eqn:Hd.
    + split; [done|]. by intros [_ ?].
    + destruct (String.eqb_spec name "SETTINGS_MODULE") as [->|Hne].
      * by split.
      * split; [done|]. by intros [? _].
  - rewrite SettingsHolder_delattr_result.
    destruct (h_dict h !! name) eqn:Hd.
    + split; [|done]. by intros _ [_ ?].
    + destruct (String.eqb_spec name "SETTINGS_MODULE") as [->|Hne].
      * split; [done|]. intros Hn. exfalso. by apply Hn.
      * split; [|done]. by intros _ [? _].
  - unfold h'. rewrite SettingsHolder_delattr_unfold. cbn [_deleted].
    apply elem_of_union_l, elem_of_singleton. reflexivity.
  - unfold h'. rewrite !SettingsHolder_delattr_unfold. cbn [_deleted h_dict
      default_settings]. rewrite delete_delete_eq. f_equal. set_solver.
  - intros Hne. unfold h'. rewrite SettingsHolder_delattr_unfold.
    unfold SettingsHolder_read, SettingsHolder_getattr.
    cbn [_deleted h_dict default_settings].
    rewrite lookup_delete_eq, SettingsHolder_class_attr_other by done.
    rewrite bool_decide_eq_true_2; [done|].
    apply elem_of_union_l, elem_of_singleton. reflexivity.
Qed.

Lemma SettingsHolder_delattr_outcome_witness :
  p_getattr sample_provider "NOWHERE" = None
  ∧ (SettingsHolder_delattr (SettingsHolder_init sample_provider)
       "NOWHERE").2 = Ok tt
  ∧ (SettingsHolder_delattr (SettingsHolder_init sample_provider)
       "SETTINGS_MODULE").2 = Raise AttributeError.
Proof.
  split; [vm_compute; reflexivity|]. split.
  - apply (SettingsHolder_delattr_outcome (SettingsHolder_init sample_provider)
             "NOWHERE"); [reflexivity|]. by intros [? _].
  - apply (SettingsHolder_delattr_outcome (SettingsHolder_init sample_provider)
             "SETTINGS_MODULE"); [reflexivity|]. split; [done|].
    apply lookup_empty.
Defined.

Lemma isupper_not_internal (name : string) :
  isupper name = true → name ≠ "_deleted" ∧ name ≠ "default_settings".
Proof. intros H. split; intros ->; by vm_compute in H. Qed.

Lemma elem_of_dict_names (h : SettingsHolder) (name : string) :
  isupper name = true →
  name ∈ SettingsHolder_dict_names h ↔ is_Some (h_dict h !! name).
Proof.
  intros [H1 H2]%isupper_not_internal. unfold SettingsHolder_dict_names.
  rewrite !elem_of_cons, elem_of_elements, elem_of_dom. tauto.
Qed.

Lemma run_op_touched (h : SettingsHolder) (o : holder_op) (name : string) :
  name ∈ _deleted (run_op h o) ∨ is_Some (h_dict (run_op h o) !! name)
  ↔ op_name o = name ∨ name ∈ _deleted h ∨ is_Some (h_dict h !! name).
Proof.
  destruct o as [n v|n]; cbn [run_op op_name].
  - cbn [SettingsHolder_setattr _deleted h_dict].
    destruct (decide (n = name)) as [->|Hne].
    + rewrite lookup_insert_eq. split; [by left|]. intros _. right. by eexists.
    + rewrite lookup_insert_ne by done. rewrite elem_of_difference,
        elem_of_singleton. split; [tauto|].
      intros [?|[?|?]]; [done|left|right]; [split|]; [done|congruence|done].
  - rewrite SettingsHolder_delattr_unfold. cbn [_deleted h_dict].
    destruct (decide (n = name)) as [->|Hne].
    + split; [by left|]. intros _. left.
      apply elem_of_union_l, elem_of_singleton. reflexivity.
    + rewrite lookup_delete_ne by done. rewrite elem_of_union,
        elem_of_singleton. split; [|tauto].
      intros [[?|?]|?]; [congruence|right; by left|right; by right].
Qed.

Lemma run_ops_touched (h : SettingsHolder) (ops : list holder_op)
    (name : string) :
  name ∈ _deleted (run_ops h ops) ∨ is_Some (h_dict (run_ops h ops) !! name)
  ↔ Exists (λ o, op_name o = name) ops
    ∨ name ∈ _deleted h ∨ is_Some (h_dict h !! name).
Proof.
  unfold run_ops. revert h. induction ops as [|o ops IH]; intros h;
    cbn [foldl].
  - rewrite Exists_nil. tauto.
  - rewrite IH, run_op_touched, Exists_cons. tauto.
Qed.

(** X10: on a holder reached from a fresh one by writes and deletions of
    option names, [is_overridden] is true of an option exactly when one
    of these operations was on that option, a write as well as a
    deletion and whatever came after it, or when the provider has an
    [is_overridden] of its own that says so. *)
Theorem SettingsHolder_is_overridden_touched (ds : provider)
    (ops : list holder_op) (name : string) :
  Forall (λ o, isupper (op_name o) = true) ops →
  isupper name = true →
  SettingsHolder_is_overridden (run_ops (SettingsHolder_init ds) ops) name
  = bool_decide (Exists (λ o, op_name o = name) ops)
    || from_option (λ f, f name) false (p_is_overridden ds).
Proof.
  intros _ Hu. unfold SettingsHolder_is_overridden.
  rewrite run_ops_default_settings. cbn [SettingsHolder_init default_settings].
  pose proof (run_ops_touched (SettingsHolder_init ds) ops name) as Ht.
  cbn [SettingsHolder_init _deleted h_dict] in Ht.
  rewrite lookup_empty in Ht.
  pose proof (elem_of_dict_names (run_ops (SettingsHolder_init ds) ops)
                name Hu) as Hn.
  assert (bool_decide (name ∈ _deleted (run_ops (SettingsHolder_init ds) ops))
          || bool_decide (name ∈ SettingsHolder_dict_names
                                   (run_ops (SettingsHolder_init ds) ops))
          = bool_decide (Exists (λ o, op_name o = name) ops)) as ->.
  { apply eq_true_iff_eq. rewrite orb_true_iff.
    rewrite !bool_decide_eq_true, Hn, Ht.
    split; [|tauto]. intros [?|[Hd|[? ?]]]; [done| |done].
    by apply elem_of_empty in Hd. }
  by destruct (p_is_overridden ds).
Qed.

Lemma SettingsHolder_is_overridden_touched_witness :
  SettingsHolder_is_overridden
    (run_ops (SettingsHolder_init sample_provider)
       [OpSet "X" (VInt 1); OpDel "X"]) "X" = true
  ∧ SettingsHolder_is_overridden
      (run_ops (SettingsHolder_init sample_provider)
         [OpSet "X" (VInt 1); OpDel "X"]) "Y" = false.
Proof.
  split.
  - rewrite (SettingsHolder_is_overridden_touched sample_provider
               [OpSet "X" (VInt 1); OpDel "X"] "X");
      [vm_compute; reflexivity|repeat constructor|reflexivity].
  - rewrite (SettingsHolder_is_overridden_touched sample_provider
               [OpSet "X" (VInt 1); OpDel "X"] "Y");
      [vm_compute; reflexivity|repeat constructor|reflexivity].
Defined.

Lemma elem_of_SettingsHolder_dir (h : SettingsHolder) (name : string) :
  name ∈ SettingsHolder_dir h ↔
    (name ∈ SettingsHolder_dict_names h ∨ name ∈ p_dir (default_settings h))
    ∧ name ∉ _deleted h.
Proof.
  unfold SettingsHolder_dir.
  rewrite elem_of_sorted, list_elem_of_filter, elem_of_app. tauto.
Qed.

(** X11: on a holder over a module, reached from a fresh one by writes
    and deletions of option names, the enumeration lists an option other
    than [SETTINGS_MODULE] exactly when reading that option succeeds. *)
Theorem SettingsHolder_dir_lists_readable (m : gmap string value)
    (ops : list holder_op) (name : string) :
  Forall (λ o, isupper (op_name o) = true) ops →
  isupper name = true →
  name ≠ "SETTINGS_MODULE" →
  let h := run_ops (SettingsHolder_init (module_provider m)) ops in
  name ∈ SettingsHolder_dir h ↔ is_ok (SettingsHolder_read h name) = true.
Proof.
  intros _ Hu Hne h.
  pose proof (run_ops_exclusive (module_provider m) ops name) as Hex.
  assert (default_settings h = module_provider m) as Hds
    by apply run_ops_default_settings.
  fold h in Hex. clearbody h.
  rewrite elem_of_SettingsHolder_dir, elem_of_dict_names by done.
  unfold SettingsHolder_read, SettingsHolder_getattr.
  rewrite SettingsHolder_class_attr_other by done.
  rewrite Hds. cbn [module_provider p_dir p_getattr].
  rewrite elem_of_py_dir.
  destruct (h_dict h !! name) as [v|] eqn:Hd.
  - split; [done|]. intros _. split; [left; by eexists|].
    intros Hdel. apply Hex. split; [done|by eexists].
  - destruct (decide (name ∈ _deleted h)) as [Hdel|Hdel].
    + rewrite bool_decide_eq_true_2 by done. split; [|done].
      by intros [_ ?].
    + rewrite bool_decide_eq_false_2 by done.
      destruct (m !! name) as [v|] eqn:Hm.
      * split; [done|]. intros _. split; [right; by eexists|done].
      * split; [|done]. intros [[[? ?]|[? ?]] _]; done.
Qed.

Lemma SettingsHolder_dir_lists_readable_witness :
  "X" ∈ SettingsHolder_dir
          (run_ops (SettingsHolder_init
                      (module_provider {[ "X" := VInt 0 ]}))
             [OpDel "X"; OpSet "X" (VInt 2)]).
Proof.
  apply (SettingsHolder_dir_lists_readable {[ "X" := VInt 0 ]}
           [OpDel "X"; OpSet "X" (VInt 2)] "X");
    [repeat constructor|reflexivity|discriminate|vm_compute; reflexivity].
Defined.

(** ** LazySettings: reads *)

Lemma LazySettings_getattr_caches (w w' : World) (p p' : LazySettings)
    (name : string) (x : pyobj) :
  LazySettings_getattr w p name = (w', p', Ok x) →
  l_dict p' !! name = Some x.
Proof.
  unfold LazySettings_getattr.
  destruct (match _wrapped p with
            | Empty => LazySettings_setup w p (Some name)
            | _ => (w, p, Ok tt)
            end) as [[w1 p1] [[]|e]]; [|done].
  destruct (wrapped_getattr (_wrapped p1) name) as [val|e]; [|done].
  intros [= _ <- <-]. cbn [l_dict]. apply lookup_insert_eq.
Qed.

(** X12: once a read through the proxy has returned a value, reading the
    same name again returns that value from the proxy's own dictionary,
    in any environment, and changes neither the proxy nor the
    environment. *)
Theorem LazySettings_read_again (w w' : World) (p p' : LazySettings)
    (name : string) (x : pyobj) :
  LazySettings_read w p name = (w', p', Ok x) →
  ∀ w2, LazySettings_read w2 p' name = (w2, p', Ok x).
Proof.
  intros H w2.
  assert (l_dict p' !! name = Some x) as Hc.
  { unfold LazySettings_read in H.
    destruct (l_dict p !! name) as [y|] eqn:Hy.
    - injection H as _ <- <-. exact Hy.
    - by eapply LazySettings_getattr_caches. }
  unfold LazySettings_read. by rewrite Hc.
Qed.

Lemma LazySettings_read_again_witness :
  LazySettings_read world_site proxy_AB "A"
  = (world_site, proxy_AB, Ok (Plain (VInt 1))).
Proof.
  apply (LazySettings_read_again world_unset world_unset proxy_AB proxy_AB
           "A" (Plain (VInt 1))).
  vm_compute. reflexivity.
Defined.

(** X13: a read through a Bound proxy does not look at the environment
    and leaves it alone, keeps the backing object, and changes the cache
    at the name read only. *)
Theorem LazySettings_read_bound (w : World) (p : LazySettings)
    (name : string) :
  LazySettings_configured p = true →
  ∃ p' r,
    LazySettings_read w p name = (w, p', r)
    ∧ _wrapped p' = _wrapped p
    ∧ (∀ other, other ≠ name → l_dict p' !! other = l_dict p !! other)
    ∧ ∀ w2, LazySettings_read w2 p name = (w2, p', r).
Proof.
  intros Hb. unfold LazySettings_read, LazySettings_getattr.
  destruct (l_dict p !! name) as [y|] eqn:Hy.
  - exists p, (Ok y). split_and!; done.
  - unfold LazySettings_configured in Hb.
    destruct (_wrapped p) as [|s|h|v] eqn:Hw; [done|..];
      cbn beta iota; rewrite ?Hw; cbn [wrapped_getattr].
    + destruct (Settings_getattr s name) as [val|e].
      * eexists _, _. split_and!; [reflexivity|reflexivity| |reflexivity].
        intros other Hne. cbn [l_dict]. by rewrite lookup_insert_ne.
      * eexists _, _. split_and!; [reflexivity|exact Hw|done|reflexivity].
    + destruct (SettingsHolder_read h name) as [val|e].
      * eexists _, _. split_and!; [reflexivity|reflexivity| |reflexivity].
        intros other Hne. cbn [l_dict]. by rewrite lookup_insert_ne.
      * eexists _, _. split_and!; [reflexivity|exact Hw|done|reflexivity].
    + eexists _, _. split_and!; [reflexivity|exact Hw|done|reflexivity].
Qed.

Lemma LazySettings_read_bound_witness :
  ∃ p' r, LazySettings_read world_site proxy_AB "X" = (world_site, p', r)
          ∧ _wrapped p' = _wrapped proxy_AB.
Proof.
  destruct (LazySettings_read_bound world_site proxy_AB "X")
    as (p' & r & Hr & Hw & _); [reflexivity|].
  by exists p', r.
Defined.

(** ** LazySettings: the outcomes of auto-resolution *)

(** X14: when the selector names a module from which [Settings] is built
    but the settings lack the option read, the read raises
    [AttributeError] and the proxy is Bound all the same, with an empty
    cache. *)
Theorem auto_resolve_binds_without_option (w w' : World) (p : LazySettings)
    (path name : string) (s : Settings) :
  isupper name = true →
  _wrapped p = Empty →
  l_dict p !! name = None →
  environ w !! ENVIRONMENT_VARIABLE = Some path →
  path ≠ EmptyString →
  Settings_init w path = Ok (w', s) →
  Settings_getattr s name = Raise AttributeError →
  LazySettings_read w p name
  = (w', {| _wrapped := Resolved s; l_dict := ∅ |}, Raise AttributeError).
Proof.
  intros _ Hp Hc He Hne Hs Hv.
  unfold LazySettings_read, LazySettings_getattr, LazySettings_setup.
  rewrite Hc, Hp, He. simpl.
  destruct (String.eqb_spec path EmptyString); [done|]. simpl.
  rewrite Hs, LazySettings_set_wrapped. simpl. by rewrite Hv.
Qed.

Lemma auto_resolve_binds_without_option_witness :
  ∃ w' p', LazySettings_read world_site LazyObject_init "NOPE"
           = (w', p', Raise AttributeError)
           ∧ LazySettings_configured p' = true.
Proof.
  destruct sample_site_constructs as [[w' s] Hs].
  exists w', {| _wrapped := Resolved s; l_dict := ∅ |}. split; [|done].
  apply (auto_resolve_binds_without_option world_site w' LazyObject_init
           "site" "NOPE" s);
    [reflexivity|reflexivity|reflexivity|vm_compute; reflexivity|discriminate
    |exact Hs|].
  destruct (Settings_init_lookup _ _ _ _ _ "NOPE" world_site_imports Hs)
    as [Hl _].
  unfold Settings_getattr. rewrite Hl. reflexivity.
Defined.



(** X16: through a proxy resolved from the environment, an option that
    the module defines in upper case reads as the module's value,
    whatever the catalog has under that name. *)
Theorem auto_resolve_reads_module (w w' : World) (p : LazySettings)
    (path name : string) (mod_ : gmap string value) (s : Settings)
    (v : value) :
  _wrapped p = Empty →
  l_dict p !! name = None →
  environ w !! ENVIRONMENT_VARIABLE = Some path →
  path ≠ EmptyString →
  importable w !! path = Some mod_ →
  Settings_init w path = Ok (w', s) →
  module_value mod_ name = Some v →
  LazySettings_read w p name
  = (w', {| _wrapped := Resolved s; l_dict := {[ name := Plain v ]} |},
     Ok (Plain v)).
Proof.
  intros Hp Hc He Hne Hi Hs Hv. unfold LazySettings_read. rewrite Hc.
  apply (LazySettings_getattr_resolves _ _ _ path); try done.
  destruct (Settings_init_lookup _ _ _ _ _ name Hi Hs) as [Hl _].
  unfold Settings_getattr. by rewrite Hl, Hv.
Qed.

Lemma auto_resolve_reads_module_witness :
  ∃ w' p', LazySettings_read world_site LazyObject_init "SECRET_KEY"
           = (w', p', Ok (Plain (VStr "k"))).
Proof.
  destruct sample_site_constructs as [[w' s] Hs].
  eexists w', _.
  apply (auto_resolve_reads_module world_site w' LazyObject_init "site"
           "SECRET_KEY" site_plain s (VStr "k"));
    [reflexivity|reflexivity|vm_compute; reflexivity|discriminate
    |exact world_site_imports|exact Hs|vm_compute; reflexivity].
Defined.

(** ** LazySettings: configured and rebound proxies *)

Lemma apply_options_deleted (options : list (string * value))
    (h : SettingsHolder) (name : string) :
  name ∈ _deleted (apply_options h options) → name ∈ _deleted h.
Proof.
  revert h. induction options as [|[n v] options IH]; intros h; [done|].
  cbn [apply_options foldl].
  fold (apply_options (SettingsHolder_setattr h n v) options).
  intros H%IH. cbn [SettingsHolder_setattr _deleted] in H.
  by apply elem_of_difference in H as [? _].
Qed.

Lemma apply_options_default_settings (options : list (string * value))
    (h : SettingsHolder) :
  default_settings (apply_options h options) = default_settings h.
Proof.
  revert h. induction options as [|[n v] options IH]; intros h; [done|].
  cbn [apply_options foldl].
  fold (apply_options (SettingsHolder_setattr h n v) options).
  by rewrite IH.
Qed.

(** X17: after [configure] with options whose names are upper case, an
    option that is not among them reads as the provider's value, and
    raises [AttributeError] when the provider has none;
    [SETTINGS_MODULE], unless given, reads as [None]. *)
Theorem configure_inherits (p : LazySettings) (ds : provider)
    (options : list (string * value)) (name : string) (w : World) :
  _wrapped p = Empty →
  Forall (λ nv, isupper nv.1 = true) options →
  isupper name = true →
  name ∉ options.*1 →
  (LazySettings_read w (LazySettings_configure p ds options).1 name).2
  = if String.eqb name "SETTINGS_MODULE" then Ok (Plain VNone)
    else match p_getattr ds name with
         | Some v => Ok (Plain v)
         | None => Raise AttributeError
         end.
Proof.
  intros Hp _ _ Hn. unfold LazySettings_configure. rewrite Hp.
  rewrite LazySettings_set_wrapped. cbn [fst].
  unfold LazySettings_read, LazySettings_getattr. cbn [l_dict _wrapped].
  rewrite lookup_empty. cbn [wrapped_getattr].
  unfold SettingsHolder_read, SettingsHolder_getattr.
  rewrite apply_options_other by done.
  rewrite apply_options_default_settings.
  cbn [SettingsHolder_init h_dict default_settings].
  rewrite lookup_empty. unfold SettingsHolder_class_attr.
  destruct (String.eqb name "SETTINGS_MODULE"); [done|].
  rewrite bool_decide_eq_false_2.
  - by destruct (p_getattr ds name).
  - intros H%apply_options_deleted. cbn [SettingsHolder_init _deleted] in H.
    by apply elem_of_empty in H.
Qed.

Lemma configure_inherits_witness :
  (LazySettings_read world_unset
     (LazySettings_configure LazyObject_init sample_provider
        [("FOO", VStr "bar")]).1 "X").2
  = Ok (Plain (VInt 0)).
Proof.
  rewrite (configure_inherits LazyObject_init sample_provider
             [("FOO", VStr "bar")] "X" world_unset);
    [vm_compute; reflexivity|reflexivity|repeat constructor|reflexivity|].
  intros H. apply elem_of_cons in H as [H|H]; [discriminate H|].
  by apply elem_of_nil in H.
Defined.


